(** * Preferences service (services/user_preferences.py)

    A shallow embedding of [UserPreferencesService] and the proofs of the
    properties its specification states.

    Conventions.
    - A Python [str] is a Rocq [string] holding its UTF-8 bytes; the search
      pattern of [str.replace] and the SQL pattern are ASCII, and byte order
      on UTF-8 is code-point order, so slicing and sorting agree.
    - A Python [int] is a [Z].  A Python [float] is an element of an abstract
      type supplied by the runtime ([PyFloat]): no result below depends on
      floating-point arithmetic.
    - The standard library ([json], [int()] on strings) and [pytz] are taken
      as a runtime interface ([PyRuntime]); the few facts used about
      [json.loads] and the catalog are collected in [RuntimeLaws].
    - The store is the SQLite table [bot_config]; only the two columns the
      service reads are kept ([updated_at] is written and never read), and
      the store is always reachable.  The rows are kept in scan order;
      [INSERT OR REPLACE] deletes the row in conflict and inserts the new
      one after the others.
    - [datetime.now()] reads a clock oracle, one reading per call, in
      microseconds. *)

From Stdlib Require Import ZArith List String Ascii Bool Lia.
From Stdlib Require Import Permutation Sorted DecimalString.
Import ListNotations.
Open Scope string_scope.
Open Scope Z_scope.
Open Scope list_scope.
#[local] Set Warnings "-register-all".

(* ================================================================== *)
(** ** Python values *)

(** Result of [int(x)]. *)
Inductive IntResult : Type :=
| IntOk (n : Z)
| IntValueError
| IntTypeError
| IntOverflowError.

(** The float operations the service can reach: [==] against floats and
    integers, [str] and [int]. *)
Class PyFloat : Type := {
  pyfloat : Type;
  float_eq : pyfloat -> pyfloat -> bool;
  float_eq_int : pyfloat -> Z -> bool;
  float_str : pyfloat -> string;
  float_int : pyfloat -> IntResult
}.

(** [None], [bool], [int], [float], [str], [list] and [dict] with string
    keys: what [json.loads] can produce, and the value types
    [set_preference] distinguishes. *)
Inductive PyVal `{PyFloat} : Type :=
| VNone
| VBool (b : bool)
| VInt (n : Z)
| VFloat (f : pyfloat)
| VStr (s : string)
| VList (items : list PyVal)
| VDict (items : list (string * PyVal)).

(** Declared preference types ([type(default).__name__]). *)
Inductive PyType : Type := TBool | TInt | TStr.

(** Exception classes raised by the runtime. *)
Inductive ExnClass : Type :=
| ClsValueError
| ClsTypeError
| ClsOverflowError
| ClsAttributeError
| ClsUnknownTimeZoneError.

(** Raised exceptions.  The two [ValueError]s of [set_preference] keep the
    data their message is formatted from. *)
Inductive Exn `{PyFloat} : Type :=
| UnknownPreferenceKey (key : string)
| InvalidPreferenceValue (key : string) (value : PyVal)
| PyError (cls : ExnClass).

Inductive Outcome `{PyFloat} (A : Type) : Type :=
| Return (a : A)
| Raise (e : Exn).
Arguments Return {_ A} a.
Arguments Raise {_ A} e.

(** Naive or aware [datetime]; [tz] is the runtime's [tzinfo]. *)
Record datetime {tz : Type} : Type := mk_datetime {
  year : Z; month : Z; day : Z;
  hour : Z; minute : Z; second : Z; microsecond : Z;
  tzinfo : option tz
}.
Arguments datetime : clear implicits.
Arguments mk_datetime {tz}.

(** What the service uses of [json], [int] and [pytz]. *)
Class PyRuntime `{PyFloat} : Type := {
  (** [json.loads(s)]; [None] is [JSONDecodeError]. *)
  json_loads : string -> option PyVal;
  (** [json.dumps(v)] for a list or dict. *)
  json_dumps : PyVal -> string;
  (** [int(s)] for a string; [None] is [ValueError]. *)
  int_of_str : string -> option Z;
  (** [pytz.all_timezones]. *)
  pytz_all_timezones : list string;
  pytz_tzinfo : Type;
  (** [pytz.timezone(zone)]. *)
  pytz_timezone : PyVal -> ExnClass + pytz_tzinfo;
  (** [zone.localize(dt)] for a naive [dt]. *)
  tz_localize : pytz_tzinfo -> datetime pytz_tzinfo -> datetime pytz_tzinfo;
  (** [dt.astimezone(zone)] for an aware [dt]. *)
  dt_astimezone : datetime pytz_tzinfo -> pytz_tzinfo -> datetime pytz_tzinfo
}.

Section Values.
Context `{FL : PyFloat}.

(** [d.get(k)] on an insertion-ordered dict with string keys. *)
Fixpoint dict_get {A : Type} (d : list (string * A)) (k : string) : option A :=
  match d with
  | [] => None
  | (k', v) :: d' => if String.eqb k' k then Some v else dict_get d' k
  end.

(** [d[k] = v]: an existing key keeps its position, a new one goes last. *)
Fixpoint dict_set {A : Type} (d : list (string * A)) (k : string) (v : A)
  : list (string * A) :=
  match d with
  | [] => [(k, v)]
  | (k', v') :: d' =>
      if String.eqb k' k then (k', v) :: d' else (k', v') :: dict_set d' k v
  end.

Definition dict_keys {A : Type} (d : list (string * A)) : list string :=
  map fst d.

(** Python [a == b]. *)
Fixpoint py_eq (a b : PyVal) {struct a} : bool :=
  match a, b with
  | VNone, VNone => true
  | VBool x, VBool y => Bool.eqb x y
  | VBool x, VInt n => Z.eqb (Z.b2z x) n
  | VInt n, VBool x => Z.eqb n (Z.b2z x)
  | VBool x, VFloat f => float_eq_int f (Z.b2z x)
  | VFloat f, VBool x => float_eq_int f (Z.b2z x)
  | VInt m, VInt n => Z.eqb m n
  | VInt n, VFloat f => float_eq_int f n
  | VFloat f, VInt n => float_eq_int f n
  | VFloat f, VFloat g => float_eq f g
  | VStr s, VStr t => String.eqb s t
  | VList xs, VList ys =>
      (fix all2 (xs : list PyVal) (ys : list PyVal) : bool :=
         match xs, ys with
         | [], [] => true
         | x :: xs', y :: ys' => py_eq x y && all2 xs' ys'
         | _, _ => false
         end) xs ys
  | VDict d, VDict e =>
      Nat.eqb (List.length d) (List.length e) &&
      (fix all1 (d : list (string * PyVal)) : bool :=
         match d with
         | [] => true
         | (k, v) :: d' =>
             match dict_get e k with
             | Some w => py_eq v w
             | None => false
             end && all1 d'
         end) d
  | _, _ => false
  end.

(** [v in l] for a list or tuple [l]. *)
Definition py_in (v : PyVal) (l : list PyVal) : bool :=
  existsb (fun x => py_eq x v) l.

(** [isinstance(v, T)] read as the specification does: a value has exactly
    one of the three declared types. *)
Definition has_type (v : PyVal) (T : PyType) : bool :=
  match v, T with
  | VBool _, TBool => true
  | VInt _, TInt => true
  | VStr _, TStr => true
  | _, _ => false
  end.

(** [str(n)] for an integer. *)
Definition str_of_int (n : Z) : string :=
  NilZero.string_of_int (Z.to_int n).

End Values.

(* ================================================================== *)
(** ** Strings and the SQL pattern *)

Definition ascii_lower (c : ascii) : ascii :=
  let n := nat_of_ascii c in
  if (Nat.leb 65 n && Nat.leb n 90)%bool then ascii_of_nat (n + 32)%nat else c.

Fixpoint str_lower (s : string) : string :=
  match s with
  | EmptyString => EmptyString
  | String c r => String (ascii_lower c) (str_lower r)
  end.

(** [key LIKE 'pref_%'] in SQLite: [_] is any one character, [%] any
    sequence, and ASCII letters match without regard to case. *)
Definition sql_like_pref (key : string) : bool :=
  (String.eqb (str_lower (substring 0 4 key)) "pref"
   && Nat.leb 5 (String.length key))%bool.

(** [s.replace(old, '')] for a non-empty [old]: occurrences are removed left
    to right without overlap.  [skip] counts the characters of a match that
    are still to be dropped. *)
Fixpoint remove_all (old : string) (skip : nat) (s : string) : string :=
  match s with
  | EmptyString => EmptyString
  | String c r =>
      match skip with
      | S k => remove_all old k r
      | O =>
          if String.prefix old s
          then remove_all old (Nat.pred (String.length old)) r
          else String c (remove_all old O r)
      end
  end.

(** [row['key'].replace('pref_', '')]. *)
Definition strip_pref (key : string) : string := remove_all "pref_" O key.

(* ================================================================== *)
(** ** The configuration store *)

(** A row of [bot_config] (columns [key] and [value]). *)
Record Row : Type := mk_row { row_key : string; row_value : string }.

(** The table, in the order a scan returns its rows. *)
Definition Store : Type := list Row.

(** [SELECT key, value FROM bot_config WHERE key LIKE 'pref_%']. *)
Definition select_prefs (t : Store) : list Row :=
  filter (fun r => sql_like_pref (row_key r)) t.

(** [INSERT OR REPLACE INTO bot_config (key, value, updated_at) ...]: the
    row that holds the key is deleted and the new row is inserted. *)
Definition insert_or_replace (key value : string) (t : Store) : Store :=
  filter (fun r => negb (String.eqb (row_key r) key)) t ++ [mk_row key value].

(** [DELETE FROM bot_config WHERE key LIKE 'pref_%']. *)
Definition delete_prefs (t : Store) : Store :=
  filter (fun r => negb (sql_like_pref (row_key r))) t.

(** [SELECT value FROM bot_config WHERE key = k]. *)
Fixpoint lookup_row (t : Store) (k : string) : option string :=
  match t with
  | [] => None
  | r :: t' =>
      if String.eqb (row_key r) k then Some (row_value r) else lookup_row t' k
  end.

(* ================================================================== *)
(** ** The service *)

Section Service.
Context `{FL : PyFloat} `{RT : !PyRuntime}.

Definition Prefs : Type := list (string * PyVal).

Definition DEFAULT_PREFERENCES : Prefs :=
  [ ("timezone", VStr "UTC");
    ("date_format", VStr "YYYY-MM-DD");
    ("time_format", VStr "24h");
    ("messages_per_page", VInt 50);
    ("auto_refresh_interval", VInt 30);
    ("show_message_previews", VBool true);
    ("show_reaction_notifications", VBool true);
    ("enable_auto_reactions", VBool true);
    ("default_emoji_mode", VStr "random");
    ("language", VStr "en");
    ("show_unmonitored_groups", VBool false);
    ("compact_message_view", VBool false);
    ("enable_ai_features", VBool true);
    ("default_ai_provider", VStr "ollama");
    ("activity_chart_style", VStr "bars");
    ("dashboard_refresh_rate", VInt 60);
    ("filter_persist_navigation", VBool true);
    ("show_deleted_messages", VBool false);
    ("notification_sound", VBool true) ].

(** The class attribute [PREFERENCE_OPTIONS] as the class body leaves it:
    [None] under ['timezone'] until a service is constructed. *)
Definition PREFERENCE_OPTIONS_initial : list (string * option (list PyVal)) :=
  [ ("timezone", None);
    ("date_format",
      Some [VStr "YYYY-MM-DD"; VStr "DD/MM/YYYY"; VStr "MM/DD/YYYY";
            VStr "DD.MM.YYYY"; VStr "YYYY年MM月DD日"]);
    ("time_format", Some [VStr "24h"; VStr "12h"]);
    ("messages_per_page", Some [VInt 25; VInt 50; VInt 100; VInt 200]);
    ("auto_refresh_interval",
      Some [VInt 0; VInt 15; VInt 30; VInt 60; VInt 120; VInt 300]);
    ("default_emoji_mode", Some [VStr "random"; VStr "fixed"; VStr "disabled"]);
    ("language",
      Some [VStr "en"; VStr "ja"; VStr "es"; VStr "fr"; VStr "de"; VStr "zh"]);
    ("default_ai_provider",
      Some [VStr "ollama"; VStr "openai"; VStr "anthropic"; VStr "gemini";
            VStr "groq"]);
    ("activity_chart_style", Some [VStr "bars"; VStr "heatmap"; VStr "line"]);
    ("dashboard_refresh_rate",
      Some [VInt 0; VInt 30; VInt 60; VInt 120; VInt 300]) ].

(** The service instance, the class attribute it writes, the store behind
    [self.db] and the clock. *)
Record State : Type := mk_state {
  db : Store;
  _preferences_cache : option Prefs;
  _cache_timestamp : option Z;  (* microseconds *)
  _cache_timeout : Z;           (* seconds *)
  PREFERENCE_OPTIONS : list (string * option (list PyVal));
  clock : nat -> Z;             (* successive readings of datetime.now() *)
  clock_reads : nat
}.

(** *** State and exception monad *)

Definition M (A : Type) : Type := State -> Outcome A * State.

Definition ret {A : Type} (a : A) : M A := fun s => (Return a, s).

Definition raise {A : Type} (e : Exn) : M A := fun s => (Raise e, s).

Definition bind {A B : Type} (c : M A) (k : A -> M B) : M B :=
  fun s =>
    match c s with
    | (Return a, s') => k a s'
    | (Raise e, s') => (Raise e, s')
    end.

Notation "x <- c ;; k" := (bind c (fun x => k))
  (at level 61, c at next level, right associativity).
Notation "c ;;; k" := (bind c (fun _ => k))
  (at level 61, right associativity).

Definition get_state : M State := fun s => (Return s, s).

Definition lift {A : Type} (o : Outcome A) : M A := fun s => (o, s).

(** [datetime.now()]. *)
Definition datetime_now : M Z :=
  fun s =>
    (Return (clock s (clock_reads s)),
     mk_state (db s) (_preferences_cache s) (_cache_timestamp s)
              (_cache_timeout s) (PREFERENCE_OPTIONS s) (clock s)
              (S (clock_reads s))).

Definition set_db (t : Store) : M unit :=
  fun s =>
    (Return tt,
     mk_state t (_preferences_cache s) (_cache_timestamp s)
              (_cache_timeout s) (PREFERENCE_OPTIONS s) (clock s)
              (clock_reads s)).

Definition set_cache (c : option Prefs) : M unit :=
  fun s =>
    (Return tt,
     mk_state (db s) c (_cache_timestamp s)
              (_cache_timeout s) (PREFERENCE_OPTIONS s) (clock s)
              (clock_reads s)).

Definition set_cache_timestamp (t : option Z) : M unit :=
  fun s =>
    (Return tt,
     mk_state (db s) (_preferences_cache s) t
              (_cache_timeout s) (PREFERENCE_OPTIONS s) (clock s)
              (clock_reads s)).

(** *** Construction *)

Definition common_zones : list string :=
  [ "UTC"; "US/Eastern"; "US/Central"; "US/Mountain"; "US/Pacific";
    "Europe/London"; "Europe/Paris"; "Europe/Berlin"; "Asia/Tokyo";
    "Asia/Shanghai"; "Asia/Hong_Kong"; "Asia/Singapore"; "Australia/Sydney";
    "Australia/Melbourne" ].

Fixpoint insert_sorted (x : string) (l : list string) : list string :=
  match l with
  | [] => [x]
  | y :: l' => if String.leb x y then x :: l else y :: insert_sorted x l'
  end.

(** [sorted(l)] on strings. *)
Fixpoint sorted (l : list string) : list string :=
  match l with
  | [] => []
  | x :: l' => insert_sorted x (sorted l')
  end.

Definition _get_timezone_options : list string :=
  let timezones := common_zones in
  let all_zones :=
    filter (fun tz => negb (existsb (String.eqb tz) common_zones))
           pytz_all_timezones in
  timezones ++ sorted all_zones.

(** [UserPreferencesService(db)], the class attribute holding [options]
    when the constructor runs. *)
Definition __init__ (options : list (string * option (list PyVal)))
    (store : Store) (clk : nat -> Z) (reads : nat) : State :=
  mk_state store None None 60
           (dict_set options "timezone"
                     (Some (map VStr _get_timezone_options)))
           clk reads.

(** *** Reading *)

(** [int(v)]. *)
Definition py_int (v : PyVal) : IntResult :=
  match v with
  | VNone => IntTypeError
  | VBool b => IntOk (Z.b2z b)
  | VInt n => IntOk n
  | VFloat f => float_int f
  | VStr s =>
      match int_of_str s with
      | Some n => IntOk n
      | None => IntValueError
      end
  | VList _ => IntTypeError
  | VDict _ => IntTypeError
  end.

(** [(now - then).seconds]: the seconds field of the normalised
    [timedelta], between 0 and 86399; the days are a separate field. *)
Definition timedelta_seconds (microseconds : Z) : Z :=
  (microseconds / 1000000) mod 86400.

(** The body of the [for row in cursor.fetchall()] loop. *)
Definition load_row (preferences : Prefs) (row : Row) : Outcome Prefs :=
  let key := strip_pref (row_key row) in
  let value :=
    match json_loads (row_value row) with
    | Some v => v
    | None => VStr (row_value row)
    end in
  let value :=
    if py_in value [VStr "true"; VStr "True"] then VBool true
    else if py_in value [VStr "false"; VStr "False"] then VBool false
    else value in
  if existsb (String.eqb key)
       ["messages_per_page"; "auto_refresh_interval"; "dashboard_refresh_rate"]
  then
    match py_int value with
    | IntOk n => Return (dict_set preferences key (VInt n))
    | IntValueError => Return (dict_set preferences key value)
    | IntTypeError => Return (dict_set preferences key value)
    | IntOverflowError => Raise (PyError ClsOverflowError)
    end
  else Return (dict_set preferences key value).

Fixpoint load_rows (rows : list Row) (preferences : Prefs) : Outcome Prefs :=
  match rows with
  | [] => Return preferences
  | row :: rows' =>
      match load_row preferences row with
      | Return preferences' => load_rows rows' preferences'
      | Raise e => Raise e
      end
  end.

(** The part of [get_all_preferences] after the cache check. *)
Definition reload : M Prefs :=
  s <- get_state ;;
  preferences <- lift (load_rows (select_prefs (db s)) DEFAULT_PREFERENCES) ;;
  set_cache (Some preferences) ;;;
  now <- datetime_now ;;
  set_cache_timestamp (Some now) ;;;
  ret preferences.

Definition get_all_preferences : M Prefs :=
  s <- get_state ;;
  hit <- match _preferences_cache s, _cache_timestamp s with
         | Some cache, Some stamp =>
             match cache with
             | [] => ret None
             | _ :: _ =>
                 now <- datetime_now ;;
                 if timedelta_seconds (now - stamp) <? _cache_timeout s
                 then ret (Some cache)
                 else ret None
             end
         | _, _ => ret None
         end ;;
  match hit with
  | Some cache => ret cache
  | None => reload
  end.

Definition get_preference (key : string) : M PyVal :=
  preferences <- get_all_preferences ;;
  ret match dict_get preferences key with
      | Some v => v
      | None =>
          match dict_get DEFAULT_PREFERENCES key with
          | Some v => v
          | None => VNone
          end
      end.

(** *** Writing *)

(** "Convert value to string for storage": [bool] first, then
    [json.dumps] for a dict or list, [str(value)] for the rest. *)
Definition value_str (value : PyVal) : string :=
  match value with
  | VBool b => if b then "true" else "false"
  | VDict _ => json_dumps value
  | VList _ => json_dumps value
  | VNone => "None"
  | VInt n => str_of_int n
  | VFloat f => float_str f
  | VStr t => t
  end.

Definition set_preference (key : string) (value : PyVal) : M bool :=
  s <- get_state ;;
  match dict_get DEFAULT_PREFERENCES key with
  | None => raise (UnknownPreferenceKey key)
  | Some _ =>
      (match dict_get (PREFERENCE_OPTIONS s) key with
       | Some (Some (o :: options)) =>
           if negb (py_in value (o :: options))
           then raise (InvalidPreferenceValue key value)
           else ret tt
       | _ => ret tt
       end) ;;;
      let db_key := ("pref_" ++ key)%string in
      set_db (insert_or_replace db_key (value_str value) (db s)) ;;;
      set_cache None ;;;
      ret true
  end.

Fixpoint set_multiple_preferences (preferences : list (string * PyVal))
  : M bool :=
  match preferences with
  | [] => ret true
  | (key, value) :: rest =>
      set_preference key value ;;;
      set_multiple_preferences rest
  end.

Definition reset_to_defaults : M bool :=
  s <- get_state ;;
  set_db (delete_prefs (db s)) ;;;
  set_cache None ;;;
  ret true.

(** *** Accessors and formatting *)

Definition get_timezone : M PyVal := get_preference "timezone".
Definition get_date_format : M PyVal := get_preference "date_format".
Definition get_time_format : M PyVal := get_preference "time_format".

Definition pad2 (n : Z) : string :=
  if n <? 10 then ("0" ++ str_of_int n)%string else str_of_int n.

Definition pad4 (n : Z) : string :=
  if n <? 10 then ("000" ++ str_of_int n)%string
  else if n <? 100 then ("00" ++ str_of_int n)%string
  else if n <? 1000 then ("0" ++ str_of_int n)%string
  else str_of_int n.

(** One [strftime] directive, in the C locale; the year is zero-padded to
    four digits as the Python documentation gives it. *)
Definition directive {tz : Type} (dt : datetime tz) (d : ascii) : string :=
  if Ascii.eqb d "Y" then pad4 (year dt)
  else if Ascii.eqb d "m" then pad2 (month dt)
  else if Ascii.eqb d "d" then pad2 (day dt)
  else if Ascii.eqb d "H" then pad2 (hour dt)
  else if Ascii.eqb d "I" then
    pad2 (if hour dt mod 12 =? 0 then 12 else hour dt mod 12)
  else if Ascii.eqb d "M" then pad2 (minute dt)
  else if Ascii.eqb d "p" then (if hour dt <? 12 then "AM" else "PM")
  else if Ascii.eqb d "%" then "%"
  else String "%" (String d EmptyString).

(** [dt.strftime(fmt)] for the directives the service uses; every other
    character is copied. *)
Fixpoint strftime {tz : Type} (dt : datetime tz) (fmt : string) : string :=
  match fmt with
  | EmptyString => EmptyString
  | String c EmptyString => String c EmptyString
  | String c (String d r as r') =>
      if Ascii.eqb c "%" then (directive dt d ++ strftime dt r)%string
      else String c (strftime dt r')
  end.

Definition format_map : list (string * string) :=
  [ ("YYYY-MM-DD", "%Y-%m-%d");
    ("DD/MM/YYYY", "%d/%m/%Y");
    ("MM/DD/YYYY", "%m/%d/%Y");
    ("DD.MM.YYYY", "%d.%m.%Y");
    ("YYYY年MM月DD日", "%Y年%m月%d日") ].

(** [format_map.get(key, default)]: the keys are strings, so only a string
    can hit; a list or dict cannot be hashed. *)
Definition format_map_get (key : PyVal) (default : string) : Outcome string :=
  match key with
  | VStr k =>
      Return match dict_get format_map k with
             | Some p => p
             | None => default
             end
  | VList _ => Raise (PyError ClsTypeError)
  | VDict _ => Raise (PyError ClsTypeError)
  | _ => Return default
  end.

Definition format_date {tz : Type} (dt : datetime tz) (include_time : bool)
  : M string :=
  date_format <- get_date_format ;;
  time_format <- get_time_format ;;
  date_fmt <- lift (format_map_get date_format "%Y-%m-%d") ;;
  let full_format :=
    if include_time then
      let time_fmt :=
        if py_eq time_format (VStr "12h") then "%I:%M %p" else "%H:%M" in
      (date_fmt ++ " " ++ time_fmt)%string
    else date_fmt in
  ret (strftime dt full_format).

Definition lift_zone (r : ExnClass + pytz_tzinfo) : M pytz_tzinfo :=
  match r with
  | inl cls => raise (PyError cls)
  | inr zone => ret zone
  end.

Definition convert_to_user_timezone (dt : datetime pytz_tzinfo)
    (from_tz : string) : M (datetime pytz_tzinfo) :=
  user_tz_name <- get_timezone ;;
  dt' <- match tzinfo dt with
         | None =>
             from_timezone <- lift_zone (pytz_timezone (VStr from_tz)) ;;
             ret (tz_localize from_timezone dt)
         | Some _ => ret dt
         end ;;
  user_tz <- lift_zone (pytz_timezone user_tz_name) ;;
  ret (dt_astimezone dt' user_tz).

Definition export_preferences : M Prefs := get_all_preferences.

Definition import_preferences (preferences : list (string * PyVal)) : M bool :=
  set_multiple_preferences preferences.

End Service.

(* ================================================================== *)
(** ** Vocabulary of the specification *)

Section Vocabulary.
Context `{FL : PyFloat} `{RT : !PyRuntime}.

(** A key of the schema. *)
Definition recognized (key : string) : bool :=
  match dict_get DEFAULT_PREFERENCES key with
  | Some _ => true
  | None => false
  end.

Definition type_of (v : PyVal) : option PyType :=
  match v with
  | VBool _ => Some TBool
  | VInt _ => Some TInt
  | VStr _ => Some TStr
  | _ => None
  end.

(** The type of the key's default. *)
Definition declared_type (key : string) : option PyType :=
  match dict_get DEFAULT_PREFERENCES key with
  | Some v => type_of v
  | None => None
  end.

(** The allowed set in force for [key]: the non-empty list held by
    [PREFERENCE_OPTIONS], if any. *)
Definition allowed_values (s : State) (key : string) : option (list PyVal) :=
  match dict_get (PREFERENCE_OPTIONS s) key with
  | Some (Some (o :: options)) => Some (o :: options)
  | _ => None
  end.

(** No allowed set is in force, or the value is a member of it. *)
Definition allowed (s : State) (key : string) (value : PyVal) : bool :=
  match allowed_values s key with
  | Some options => py_in value options
  | None => true
  end.

(** The validation of [set_preference]. *)
Definition validates (s : State) (key : string) (value : PyVal) : bool :=
  (recognized key && allowed s key value)%bool.

Definition validation_error (key : string) (value : PyVal) : Exn :=
  if recognized key then InvalidPreferenceValue key value
  else UnknownPreferenceKey key.

(** The state a successful [set_preference] leaves. *)
Definition after_set (s : State) (key : string) (value : PyVal) : State :=
  mk_state (insert_or_replace ("pref_" ++ key)%string (value_str value) (db s))
           None (_cache_timestamp s) (_cache_timeout s)
           (PREFERENCE_OPTIONS s) (clock s) (clock_reads s).

(** The store after the entries are written in order. *)
Definition persist (t : Store) (entries : list (string * PyVal)) : Store :=
  fold_left
    (fun t e =>
       insert_or_replace ("pref_" ++ fst e)%string (value_str (snd e)) t)
    entries t.

(** The state after [set_preference] succeeded on each entry in order. *)
Definition after_sets (s : State) (entries : list (string * PyVal)) : State :=
  fold_left (fun s e => after_set s (fst e) (snd e)) entries s.

(** Lexicographic order on identifiers. *)
Definition lex_le (a b : string) : Prop := String.leb a b = true.

(** The operation leaves [PREFERENCE_OPTIONS], and so the catalog, as it
    found it. *)
Definition keeps_options {A : Type} (c : M A) : Prop :=
  forall s, PREFERENCE_OPTIONS (snd (c s)) = PREFERENCE_OPTIONS s.

(** [hash(v)] does not raise. *)
Definition hashable (v : PyVal) : bool :=
  match v with
  | VList _ => false
  | VDict _ => false
  | _ => true
  end.


(** [PREFERENCE_OPTIONS] as a constructor leaves it. *)
Definition constructed_options : list (string * option (list PyVal)) :=
  dict_set PREFERENCE_OPTIONS_initial "timezone"
           (Some (map VStr _get_timezone_options)).

(** Decoding the row does not raise. *)
Definition row_loads (r : Row) : bool :=
  match load_row [] r with
  | Return _ => true
  | Raise _ => false
  end.

(** No preference row of the store makes a reload raise. *)
Definition store_loads (t : Store) : bool :=
  forallb row_loads (select_prefs t).

(** Every preference row of the store is keyed [pref_] + a schema key, as
    the rows [set_preference] writes are. *)
Definition rows_recognized (t : Store) : bool :=
  forallb
    (fun r =>
       existsb (fun k => String.eqb (row_key r) ("pref_" ++ k)%string)
               (dict_keys DEFAULT_PREFERENCES))
    (select_prefs t).

(** The cached snapshot, if any, is the one a reload of the current store
    gives: the service is the only writer of its rows. *)
Definition cache_coherent (s : State) : Prop :=
  forall cache,
    _preferences_cache s = Some cache ->
    load_rows (select_prefs (db s)) DEFAULT_PREFERENCES = Return cache.

(** The preference rows are the service's own: keyed by schema keys,
    loading without error, and the cache in step with the store. *)
Definition well_formed (s : State) : Prop :=
  rows_recognized (db s) = true
  /\ store_loads (db s) = true
  /\ cache_coherent s.

(** The stored form of a typed value is read back by [json.loads] as the
    reload expects: a boolean and an integer decode to themselves, a string
    is not a JSON text and not one of the boolean words. *)
Definition reads_back (v : PyVal) : Prop :=
  match v with
  | VBool b => json_loads (value_str (VBool b)) = Some (VBool b)
  | VInt n => json_loads (str_of_int n) = Some (VInt n)
  | VStr t =>
      json_loads t = None
      /\ py_in (VStr t) [VStr "true"; VStr "True"] = false
      /\ py_in (VStr t) [VStr "false"; VStr "False"] = false
  | _ => False
  end.

(** What the results below use of [json.loads] and of the catalog. *)
Class RuntimeLaws : Prop := {
  json_booleans : forall b, reads_back (VBool b);
  json_options :
    forall key options v,
      dict_get PREFERENCE_OPTIONS_initial key = Some (Some options) ->
      In v options -> reads_back v;
  json_zones :
    forall zone, In zone _get_timezone_options -> reads_back (VStr zone)
}.

End Vocabulary.

(* ================================================================== *)
(** ** Introspection and the page helpers

    [get_preference_metadata] with its two tables, and the methods of
    [BasePage] (web/shared/base_page.py) that call the service.  A page
    constructs its own service for each call: the instance fields of the
    state are then those of the instance just constructed.  [str.title] and
    [datetime.fromtimestamp] are taken from the runtime. *)

Section Introspection.
Context `{FL : PyFloat} `{RT : !PyRuntime}.

(** [s.title()]. *)
Variable str_title : string -> string.

(** [datetime.fromtimestamp(timestamp_ms / 1000, tz=timezone.utc)]. *)
Variable fromtimestamp_utc : Z -> ExnClass + datetime pytz_tzinfo.

Notation "x <- c ;; k" := (bind c (fun x => k))
  (at level 61, c at next level, right associativity).
Notation "c ;;; k" := (bind c (fun _ => k))
  (at level 61, right associativity).

(** [type(v).__name__]. *)
Definition type_name (v : PyVal) : string :=
  match v with
  | VNone => "NoneType"
  | VBool _ => "bool"
  | VInt _ => "int"
  | VFloat _ => "float"
  | VStr _ => "str"
  | VList _ => "list"
  | VDict _ => "dict"
  end.

(** The [categories] table of [_categorize_preference], in its order. *)
Definition categories : list (string * list string) :=
  [ ("Display", ["timezone"; "date_format"; "time_format"; "language"]);
    ("Messages",
      ["messages_per_page"; "show_message_previews"; "compact_message_view";
       "show_deleted_messages"; "filter_persist_navigation"]);
    ("Notifications",
      ["show_reaction_notifications"; "notification_sound";
       "auto_refresh_interval"; "dashboard_refresh_rate"]);
    ("AI & Automation",
      ["enable_ai_features"; "default_ai_provider"; "enable_auto_reactions";
       "default_emoji_mode"]);
    ("Advanced", ["show_unmonitored_groups"; "activity_chart_style"]) ].

(** The [for category, keys in categories.items()] loop. *)
Fixpoint categorize_in (table : list (string * list string)) (key : string)
  : string :=
  match table with
  | [] => "Other"
  | (category, keys) :: table' =>
      if existsb (String.eqb key) keys then category
      else categorize_in table' key
  end.

Definition _categorize_preference (key : string) : string :=
  categorize_in categories key.

(** The [descriptions] table of [_get_preference_description]. *)
Definition descriptions : list (string * string) :=
  [ ("timezone", "Your local timezone for displaying dates and times");
    ("date_format", "How dates are displayed throughout the application");
    ("time_format", "12-hour (AM/PM) or 24-hour time display");
    ("messages_per_page", "Number of messages to show per page");
    ("auto_refresh_interval", "How often to refresh data (0 = disabled)");
    ("show_message_previews", "Show message text previews in lists");
    ("show_reaction_notifications",
      "Display notifications for emoji reactions");
    ("enable_auto_reactions",
      "Automatically send emoji reactions to messages");
    ("default_emoji_mode", "How emojis are selected for auto-reactions");
    ("language", "Interface language");
    ("show_unmonitored_groups", "Display unmonitored groups in lists");
    ("compact_message_view", "Use compact spacing in message lists");
    ("enable_ai_features", "Enable AI-powered features");
    ("default_ai_provider", "Default AI provider for analysis");
    ("activity_chart_style", "Visual style for activity charts");
    ("dashboard_refresh_rate", "Dashboard auto-refresh interval (seconds)");
    ("filter_persist_navigation",
      "Keep filters when navigating between pages");
    ("show_deleted_messages", "Show deleted messages with strikethrough");
    ("notification_sound", "Play sound for new notifications") ].

(** [s.replace("_", " ")]. *)
Fixpoint underscores_to_spaces (s : string) : string :=
  match s with
  | EmptyString => EmptyString
  | String c r =>
      String (if Ascii.eqb c "_" then " "%char else c)
             (underscores_to_spaces r)
  end.

Definition _get_preference_description (key : string) : string :=
  match dict_get descriptions key with
  | Some d => d
  | None => ("Configure " ++ str_title (underscores_to_spaces key))%string
  end.

(** One entry of the metadata map. *)
Record Metadata : Type := mk_metadata {
  meta_default : PyVal;
  meta_current : PyVal;
  meta_type : string;
  meta_options : option (list PyVal);
  meta_category : string;
  meta_description : string
}.

(** [self.PREFERENCE_OPTIONS.get(key)]: [None] for a missing key as for the
    [None] stored under it. *)
Definition options_get (s : State) (key : string) : option (list PyVal) :=
  match dict_get (PREFERENCE_OPTIONS s) key with
  | Some (Some options) => Some options
  | _ => None
  end.

(** The [for key, default_value in self.DEFAULT_PREFERENCES.items()] loop
    of [get_preference_metadata]. *)
Fixpoint metadata_loop (items : list (string * PyVal))
    (metadata : list (string * Metadata)) : M (list (string * Metadata)) :=
  match items with
  | [] => ret metadata
  | (key, default_value) :: items' =>
      current <- get_preference key ;;
      s <- get_state ;;
      metadata_loop items'
        (dict_set metadata key
           (mk_metadata default_value current (type_name default_value)
                        (options_get s key) (_categorize_preference key)
                        (_get_preference_description key)))
  end.

Definition get_preference_metadata : M (list (string * Metadata)) :=
  metadata_loop DEFAULT_PREFERENCES [].

(** *** BasePage *)

(** [try: body except Exception: handler]; what [body] did to the state
    before it raised stays done. *)
Definition try_except {A : Type} (body : M A) (handler : Exn -> M A) : M A :=
  fun s =>
    match body s with
    | (Return a, s') => (Return a, s')
    | (Raise e, s') => handler e s'
    end.

(** [prefs_service = UserPreferencesService(self.db)]. *)
Definition new_service : M unit :=
  fun s =>
    (Return tt,
     __init__ (PREFERENCE_OPTIONS s) (db s) (clock s) (clock_reads s)).

(** [BasePage.get_user_timezone(query)]; the query is not used. *)
Definition get_user_timezone : M PyVal :=
  new_service ;;; get_timezone.

Definition lift_class {A : Type} (r : ExnClass + A) : M A :=
  match r with
  | inl cls => raise (PyError cls)
  | inr a => ret a
  end.

(** [BasePage.format_timestamp(timestamp_ms, user_timezone, include_time)]. *)
Definition format_timestamp (timestamp_ms : option Z)
    (user_timezone : option string) (include_time : bool) : M string :=
  match timestamp_ms with
  | None => ret "Unknown time"
  | Some 0 => ret "Unknown time"
  | Some ms =>
      try_except
        (new_service ;;;
         dt <- lift_class (fromtimestamp_utc ms) ;;
         zone_name <- match user_timezone with
                      | None => get_timezone
                      | Some EmptyString => get_timezone
                      | Some name => ret (VStr name)
                      end ;;
         dt' <- try_except
                  (user_tz <- lift_zone (pytz_timezone zone_name) ;;
                   ret (dt_astimezone dt user_tz))
                  (fun _ => ret dt) ;;
         format_date dt' include_time)
        (fun _ => ret "Unknown time")
  end.

(** The operation does not write the store, whether it returns or raises. *)
Definition read_only {A : Type} (c : M A) : Prop :=
  forall s, db (snd (c s)) = db s.

(** The row of [key] is among the rows a reload scans, and no row scanned
    after it is read as [key]. *)
Definition settled (t : Store) (key : string) (value : PyVal) : Prop :=
  exists before after,
    select_prefs t
    = before ++ mk_row ("pref_" ++ key) (value_str value) :: after
    /\ forall r, In r after -> strip_pref (row_key r) <> key.

End Introspection.

(* ================================================================== *)
(** ** A reference runtime

    A small instance of the runtime interface, used to run the service on
    concrete inputs.  It has no float values; its JSON decoder reads the
    texts [true], [false], [null] and the integers and rejects every other
    text, so it agrees with [json.loads] on scalars that are not numbers with
    a fraction or exponent and not quoted strings; its zones are a sample of
    the [pytz] catalog and carry no offset. *)

Module Reference.

#[export] Instance no_float : PyFloat := {
  pyfloat := Empty_set;
  float_eq := fun f _ => match f with end;
  float_eq_int := fun f _ => match f with end;
  float_str := fun f => match f with end;
  float_int := fun f => match f with end
}.

Definition digit_value (c : ascii) : option Z :=
  let n := nat_of_ascii c in
  if (Nat.leb 48 n && Nat.leb n 57)%bool then Some (Z.of_nat n - 48) else None.

Fixpoint parse_digits (acc : Z) (s : string) : option Z :=
  match s with
  | EmptyString => Some acc
  | String c r =>
      match digit_value c with
      | Some d => parse_digits (10 * acc + d) r
      | None => None
      end
  end.

(** A JSON integer: an optional minus sign, then 0 or a digit string that
    does not start with 0. *)
Definition parse_json_int (s : string) : option Z :=
  let unsigned (body : string) : option Z :=
    match body with
    | EmptyString => None
    | String c EmptyString => digit_value c
    | String c _ => if Ascii.eqb c "0" then None else parse_digits 0 body
    end in
  match s with
  | String c r =>
      if Ascii.eqb c "-" then option_map Z.opp (unsigned r) else unsigned s
  | EmptyString => None
  end.

Definition loads (s : string) : option PyVal :=
  if String.eqb s "true" then Some (VBool true)
  else if String.eqb s "false" then Some (VBool false)
  else if String.eqb s "null" then Some VNone
  else option_map VInt (parse_json_int s).

(** [int(s)] on an optional sign followed by digits. *)
Definition parse_int (s : string) : option Z :=
  let digits (body : string) : option Z :=
    match body with
    | EmptyString => None
    | _ => parse_digits 0 body
    end in
  match s with
  | String c r =>
      if Ascii.eqb c "-" then option_map Z.opp (digits r)
      else if Ascii.eqb c "+" then digits r
      else digits s
  | EmptyString => None
  end.

Definition double_quote : ascii := ascii_of_nat 34.
Definition backslash : ascii := ascii_of_nat 92.

Fixpoint quote_chars (s : string) : string :=
  match s with
  | EmptyString => EmptyString
  | String c r =>
      if (Ascii.eqb c double_quote || Ascii.eqb c backslash)%bool
      then String backslash (String c (quote_chars r))
      else String c (quote_chars r)
  end.

Definition quote (s : string) : string :=
  (String double_quote (quote_chars s)
   ++ String double_quote EmptyString)%string.

(** [json.dumps] with its default separators, on printable ASCII. *)
Fixpoint dumps (v : PyVal) : string :=
  match v with
  | VNone => "null"
  | VBool b => if b then "true" else "false"
  | VInt n => str_of_int n
  | VFloat f => match f with end
  | VStr s => quote s
  | VList items =>
      ("[" ++
       (fix go (first : bool) (l : list PyVal) : string :=
          match l with
          | [] => EmptyString
          | x :: l' =>
              ((if first then "" else ", ") ++ dumps x ++ go false l')%string
          end) true items
       ++ "]")%string
  | VDict items =>
      ("{" ++
       (fix go (first : bool) (l : list (string * PyVal)) : string :=
          match l with
          | [] => EmptyString
          | (k, x) :: l' =>
              ((if first then "" else ", ") ++ quote k ++ ": " ++ dumps x
               ++ go false l')%string
          end) true items
       ++ "}")%string
  end.

Definition all_timezones : list string :=
  [ "Africa/Cairo"; "America/New_York"; "Asia/Hong_Kong"; "Asia/Kolkata";
    "Asia/Shanghai"; "Asia/Singapore"; "Asia/Tokyo"; "Australia/Melbourne";
    "Australia/Sydney"; "Europe/Athens"; "Europe/Berlin"; "Europe/London";
    "Europe/Paris"; "US/Central"; "US/Eastern"; "US/Mountain"; "US/Pacific";
    "UTC" ].

Definition timezone (zone : PyVal) : ExnClass + string :=
  match zone with
  | VStr z =>
      if existsb (String.eqb z) all_timezones then inr z
      else inl ClsUnknownTimeZoneError
  | VNone => inl ClsUnknownTimeZoneError
  | _ => inl ClsAttributeError
  end.

Definition attach (zone : string) (dt : datetime string) : datetime string :=
  mk_datetime (year dt) (month dt) (day dt) (hour dt) (minute dt)
              (second dt) (microsecond dt) (Some zone).

#[export] Instance runtime : PyRuntime := {
  json_loads := loads;
  json_dumps := dumps;
  int_of_str := parse_int;
  pytz_all_timezones := all_timezones;
  pytz_tzinfo := string;
  pytz_timezone := timezone;
  tz_localize := attach;
  dt_astimezone := fun dt zone => attach zone dt
}.

(** A clock that starts at [t0] and advances [step] microseconds a reading. *)
Definition ticking (t0 step : Z) : nat -> Z :=
  fun i => t0 + step * Z.of_nat i.

(** A service constructed over [store]. *)
Definition service (store : Store) (clk : nat -> Z) : State :=
  __init__ PREFERENCE_OPTIONS_initial store clk O.

End Reference.

(* ================================================================== *)
(** ** A runtime with an infinite float

    The reference runtime extended with one float value, positive infinity:
    [json.loads] reads the text [Infinity] as that float, and [int] of it
    raises [OverflowError]. *)

Module WithInfinity.

#[export] Instance infinity : PyFloat := {
  pyfloat := unit;
  float_eq := fun _ _ => true;
  float_eq_int := fun _ _ => false;
  float_str := fun _ => "inf";
  float_int := fun _ => IntOverflowError
}.

Definition loads (s : string) : option PyVal :=
  if String.eqb s "Infinity" then Some (VFloat tt)
  else if String.eqb s "true" then Some (VBool true)
  else if String.eqb s "false" then Some (VBool false)
  else if String.eqb s "null" then Some VNone
  else option_map VInt (Reference.parse_json_int s).

Fixpoint dumps (v : PyVal) : string :=
  match v with
  | VNone => "null"
  | VBool b => if b then "true" else "false"
  | VInt n => str_of_int n
  | VFloat _ => "Infinity"
  | VStr s => Reference.quote s
  | VList items =>
      ("[" ++
       (fix go (first : bool) (l : list PyVal) : string :=
          match l with
          | [] => EmptyString
          | x :: l' =>
              ((if first then "" else ", ") ++ dumps x ++ go false l')%string
          end) true items
       ++ "]")%string
  | VDict items =>
      ("{" ++
       (fix go (first : bool) (l : list (string * PyVal)) : string :=
          match l with
          | [] => EmptyString
          | (k, x) :: l' =>
              ((if first then "" else ", ") ++ Reference.quote k ++ ": "
               ++ dumps x ++ go false l')%string
          end) true items
       ++ "}")%string
  end.

Definition timezone (zone : PyVal) : ExnClass + string :=
  match zone with
  | VStr z =>
      if existsb (String.eqb z) Reference.all_timezones then inr z
      else inl ClsUnknownTimeZoneError
  | VNone => inl ClsUnknownTimeZoneError
  | _ => inl ClsAttributeError
  end.

#[export] Instance runtime : PyRuntime := {
  json_loads := loads;
  json_dumps := dumps;
  int_of_str := Reference.parse_int;
  pytz_all_timezones := Reference.all_timezones;
  pytz_tzinfo := string;
  pytz_timezone := timezone;
  tz_localize := Reference.attach;
  dt_astimezone := fun dt zone => Reference.attach zone dt
}.

(** A service constructed over [store]. *)
Definition service (store : Store) (clk : nat -> Z) : State :=
  __init__ PREFERENCE_OPTIONS_initial store clk O.

End WithInfinity.

(* ================================================================== *)
(** ** Properties *)

Section Properties.
Context `{FL : PyFloat} `{RT : !PyRuntime}.

Ltac run :=
  unfold reload, bind, ret, raise, lift, get_state, set_db, set_cache,
    set_cache_timestamp, datetime_now.

(** *** Validation and writing *)

Lemma set_preference_spec (s : State) (key : string) (value : PyVal) :
  set_preference key value s =
  if validates s key value then (Return true, after_set s key value)
  else (Raise (validation_error key value), s).
Proof.
  unfold set_preference, validates, validation_error, allowed, allowed_values,
    recognized, after_set.
  run.
  destruct (dict_get DEFAULT_PREFERENCES key) as [d|]; [|reflexivity].
  destruct (dict_get (PREFERENCE_OPTIONS s) key) as [[[|o options]|]|];
    simpl; try reflexivity.
  destruct (py_eq o value || py_in value options)%bool;
    reflexivity.
Qed.

Lemma set_preference_options (s : State) (key : string) (value : PyVal) :
  PREFERENCE_OPTIONS (snd (set_preference key value s)) = PREFERENCE_OPTIONS s.
Proof.
  rewrite set_preference_spec.
  destruct (validates s key value); reflexivity.
Qed.

Lemma validates_after_set (s : State) (k : string) (v : PyVal)
    (key : string) (value : PyVal) :
  validates (after_set s k v) key value = validates s key value.
Proof. reflexivity. Qed.


(** *** Reset *)

Lemma prefix_pref_like (key : string) :
  String.prefix "pref_" key = true -> sql_like_pref key = true.
Proof.
  intros H.
  apply prefix_correct in H. simpl in H.
  destruct key as [|a [|b [|c [|d [|e r]]]]]; simpl in H; try discriminate.
  injection H as -> -> -> -> ->. reflexivity.
Qed.

Lemma select_delete_prefs (t : Store) : select_prefs (delete_prefs t) = [].
Proof.
  unfold select_prefs, delete_prefs.
  induction t as [|r t IH]; simpl; [reflexivity|].
  destruct (sql_like_pref (row_key r)) eqn:E; simpl; [exact IH|].
  rewrite E. exact IH.
Qed.

(** C6.  From any state, [reset_to_defaults] returns, removes every row
    whose key starts with [pref_] (every row the reload query selects) and
    keeps the others, clears the cache, and the next [get_all_preferences]
    returns exactly the default map. *)
Theorem reset_to_defaults_restores_defaults (s : State) :
  exists s1,
    reset_to_defaults s = (Return true, s1)
    /\ db s1 = filter (fun r => negb (sql_like_pref (row_key r))) (db s)
    /\ (forall r, In r (db s1) -> String.prefix "pref_" (row_key r) = false)
    /\ select_prefs (db s1) = []
    /\ _preferences_cache s1 = None
    /\ exists s2,
         get_all_preferences s1 = (Return DEFAULT_PREFERENCES, s2)
         /\ db s2 = db s1.
Proof.
  eexists. split; [reflexivity|]. simpl.
  split; [reflexivity|].
  split.
  { intros r Hr. apply filter_In in Hr as [_ Hr].
    destruct (String.prefix "pref_" (row_key r)) eqn:E; [|reflexivity].
    apply prefix_pref_like in E. rewrite E in Hr. discriminate. }
  split; [apply select_delete_prefs|].
  split; [reflexivity|].
  eexists. unfold get_all_preferences. run. cbn [_preferences_cache db].
  fold (delete_prefs (db s)). rewrite select_delete_prefs.
  cbn [load_rows]. split; reflexivity.
Qed.

(** *** Batches *)

Lemma lookup_insert_same (t : Store) (k v : string) :
  lookup_row (insert_or_replace k v t) k = Some v.
Proof.
  unfold insert_or_replace.
  induction t as [|r t IH]; simpl.
  - now rewrite String.eqb_refl.
  - destruct (String.eqb (row_key r) k) eqn:E; simpl; [exact IH|].
    rewrite E. exact IH.
Qed.

Lemma lookup_insert_other (t : Store) (k k' v : string) :
  k <> k' ->
  lookup_row (insert_or_replace k' v t) k = lookup_row t k.
Proof.
  intros Hne. unfold insert_or_replace.
  induction t as [|r t IH]; simpl.
  - destruct (String.eqb k' k) eqn:E; [|reflexivity].
    apply String.eqb_eq in E. congruence.
  - destruct (String.eqb (row_key r) k') eqn:E1; simpl.
    + apply String.eqb_eq in E1.
      destruct (String.eqb (row_key r) k) eqn:E2; [|exact IH].
      apply String.eqb_eq in E2. congruence.
    + destruct (String.eqb (row_key r) k); [reflexivity|exact IH].
Qed.

Lemma db_key_injective (k k' : string) :
  ("pref_" ++ k)%string = ("pref_" ++ k')%string -> k = k'.
Proof. simpl. congruence. Qed.

Lemma lookup_persist_other (entries : list (string * PyVal)) (t : Store)
    (k : string) :
  ~ In k (map fst entries) ->
  lookup_row (persist t entries) ("pref_" ++ k)%string
  = lookup_row t ("pref_" ++ k)%string.
Proof.
  revert t. induction entries as [|[k0 v0] rest IH]; intros t Hk;
    [reflexivity|].
  simpl in Hk. unfold persist in *. cbn [fold_left fst snd].
  rewrite IH by tauto.
  apply lookup_insert_other. intros E. apply db_key_injective in E.
  subst. tauto.
Qed.

Lemma lookup_persist (entries : list (string * PyVal)) (t : Store)
    (k : string) (v : PyVal) :
  NoDup (map fst entries) -> In (k, v) entries ->
  lookup_row (persist t entries) ("pref_" ++ k)%string = Some (value_str v).
Proof.
  revert t. induction entries as [|[k0 v0] rest IH]; intros t Hnd Hin;
    [contradiction|].
  simpl in Hnd. apply NoDup_cons_iff in Hnd as [Hk0 Hnd].
  destruct Hin as [E|Hin].
  - injection E as -> ->.
    change (persist t ((k, v) :: rest))
      with (persist (insert_or_replace ("pref_" ++ k)%string (value_str v) t)
                    rest).
    rewrite lookup_persist_other by exact Hk0.
    apply lookup_insert_same.
  - change (persist t ((k0, v0) :: rest))
      with (persist (insert_or_replace ("pref_" ++ k0)%string (value_str v0) t)
                    rest).
    now apply IH.
Qed.

Lemma db_after_sets (entries : list (string * PyVal)) (s : State) :
  db (after_sets s entries) = persist (db s) entries.
Proof.
  revert s. induction entries as [|e rest IH]; intros s; [reflexivity|].
  unfold after_sets, persist in *. cbn [fold_left]. now rewrite IH.
Qed.

Lemma set_multiple_preferences_prefix
    (pre rest : list (string * PyVal)) (s : State) :
  forallb (fun e => validates s (fst e) (snd e)) pre = true ->
  set_multiple_preferences (pre ++ rest) s
  = set_multiple_preferences rest (after_sets s pre).
Proof.
  revert s. induction pre as [|[k v] pre IH]; intros s Hall; [reflexivity|].
  cbn [forallb fst snd] in Hall. apply andb_true_iff in Hall as [Hv Hall].
  cbn [app set_multiple_preferences]. unfold bind at 1.
  rewrite set_preference_spec, Hv.
  unfold after_sets. cbn [fold_left fst snd].
  apply IH. exact Hall.
Qed.

(** C8.  [set_multiple_preferences] applies [set_preference] entry by entry
    in the order of the mapping.  When an entry fails validation after a
    run of valid entries, the validation error of that entry is raised at
    once, the entries after it are not applied, and the state is the one
    the valid entries before it left: each of them is in the store, and
    nothing is rolled back. *)
Theorem set_multiple_preferences_not_transactional
    (s : State) (pre post : list (string * PyVal))
    (key : string) (value : PyVal)
    (Hpre : forallb (fun e => validates s (fst e) (snd e)) pre = true)
    (Hbad : validates s key value = false) :
  set_multiple_preferences (pre ++ (key, value) :: post) s
  = (Raise (validation_error key value), after_sets s pre)
  /\ db (after_sets s pre) = persist (db s) pre
  /\ (NoDup (map fst pre) ->
      forall k v, In (k, v) pre ->
        lookup_row (db (after_sets s pre)) ("pref_" ++ k)%string
        = Some (value_str v)).
Proof.
  split; [|split].
  - rewrite set_multiple_preferences_prefix by exact Hpre.
    cbn [set_multiple_preferences]. unfold bind.
    rewrite set_preference_spec.
    assert (validates (after_sets s pre) key value = validates s key value)
      as ->.
    { clear. revert s. induction pre as [|e pre IH]; intros s; [reflexivity|].
      unfold after_sets in *. cbn [fold_left]. now rewrite IH. }
    now rewrite Hbad.
  - apply db_after_sets.
  - intros Hnd k v Hin. rewrite db_after_sets. now apply lookup_persist.
Qed.

(** A batch of valid entries is applied whole. *)
Lemma set_multiple_preferences_all_valid
    (s : State) (entries : list (string * PyVal)) :
  forallb (fun e => validates s (fst e) (snd e)) entries = true ->
  set_multiple_preferences entries s = (Return true, after_sets s entries).
Proof.
  intros H. rewrite <- (app_nil_r entries) at 1.
  now rewrite set_multiple_preferences_prefix.
Qed.

(** *** The timezone catalog *)

Lemma insert_sorted_perm (x : string) (l : list string) :
  Permutation (insert_sorted x l) (x :: l).
Proof.
  induction l as [|y l IH]; simpl; [constructor; constructor|].
  destruct (String.leb x y); [apply Permutation_refl|].
  eapply perm_trans; [apply perm_skip, IH|apply perm_swap].
Qed.

Lemma sorted_perm (l : list string) : Permutation (sorted l) l.
Proof.
  induction l as [|x l IH]; simpl; [constructor|].
  eapply perm_trans; [apply insert_sorted_perm|now apply perm_skip].
Qed.

Lemma insert_sorted_hd (x a : string) (l : list string) :
  lex_le a x -> HdRel lex_le a l -> HdRel lex_le a (insert_sorted x l).
Proof.
  intros Hax Hal. destruct l as [|y l]; simpl; [now constructor|].
  destruct (String.leb x y); constructor; [exact Hax|].
  now inversion Hal.
Qed.

Lemma insert_sorted_sorted (x : string) (l : list string) :
  Sorted lex_le l -> Sorted lex_le (insert_sorted x l).
Proof.
  induction 1 as [|y l Hs IH Hhd]; simpl.
  - repeat constructor.
  - destruct (String.leb x y) eqn:E.
    + constructor; [now constructor|]. now constructor.
    + constructor; [exact IH|].
      apply insert_sorted_hd; [|exact Hhd].
      destruct (String.leb_total x y) as [H|H]; [congruence|exact H].
Qed.

Lemma sorted_sorted (l : list string) : Sorted lex_le (sorted l).
Proof.
  induction l as [|x l IH]; simpl; [constructor|].
  now apply insert_sorted_sorted.
Qed.

Lemma in_common_zones (tz : string) :
  existsb (String.eqb tz) common_zones = true <-> In tz common_zones.
Proof.
  rewrite existsb_exists. split.
  - intros (x & Hx & E). apply String.eqb_eq in E. now subst.
  - intros H. exists tz. split; [exact H|apply String.eqb_refl].
Qed.

Lemma NoDup_common_zones : NoDup common_zones.
Proof.
  unfold common_zones.
  repeat (constructor;
          [simpl; intros H;
           repeat (destruct H as [H|H]; [discriminate H|]); exact H|]).
  constructor.
Qed.

Lemma dict_get_set_same {A : Type} (d : list (string * A)) (k : string)
    (v : A) :
  dict_get (dict_set d k v) k = Some v.
Proof.
  induction d as [|[k' v'] d IH]; simpl.
  - now rewrite String.eqb_refl.
  - destruct (String.eqb k' k) eqn:E; simpl; rewrite E; [reflexivity|exact IH].
Qed.

Lemma dict_get_set_other {A : Type} (d : list (string * A)) (k k' : string)
    (v : A) :
  k' <> k -> dict_get (dict_set d k' v) k = dict_get d k.
Proof.
  intros Hne. induction d as [|[k0 v0] d IH]; simpl.
  - destruct (String.eqb k' k) eqn:E; [|reflexivity].
    apply String.eqb_eq in E. contradiction.
  - destruct (String.eqb k0 k') eqn:E; simpl.
    + apply String.eqb_eq in E. subst k0.
      destruct (String.eqb k' k) eqn:E2; [|reflexivity].
      apply String.eqb_eq in E2. contradiction.
    + destruct (String.eqb k0 k); [reflexivity|exact IH].
Qed.

Lemma dict_set_twice {A : Type} (d : list (string * A)) (k : string)
    (v : A) :
  dict_set (dict_set d k v) k v = dict_set d k v.
Proof.
  induction d as [|[k' v'] d IH]; simpl.
  - now rewrite String.eqb_refl.
  - destruct (String.eqb k' k) eqn:E; simpl; rewrite E; [reflexivity|].
    now rewrite IH.
Qed.

Lemma keeps_ret {A : Type} (a : A) : keeps_options (ret a).
Proof. intros s. reflexivity. Qed.

Lemma keeps_raise {A : Type} (e : Exn) : keeps_options (raise e : M A).
Proof. intros s. reflexivity. Qed.

Lemma keeps_lift {A : Type} (o : Outcome A) : keeps_options (lift o).
Proof. intros s. reflexivity. Qed.

Lemma keeps_bind {A B : Type} (c : M A) (k : A -> M B) :
  keeps_options c -> (forall a, keeps_options (k a)) ->
  keeps_options (bind c k).
Proof.
  intros Hc Hk s. unfold bind. specialize (Hc s).
  destruct (c s) as [[a|e] s']; simpl in *; [|exact Hc].
  now rewrite Hk.
Qed.

Lemma keeps_get_all_preferences : keeps_options get_all_preferences.
Proof.
  assert (keeps_options reload) as Hreload.
  { intros s. unfold reload. run.
    destruct (load_rows (select_prefs (db s)) DEFAULT_PREFERENCES);
      reflexivity. }
  intros s. unfold get_all_preferences, bind, get_state, ret, datetime_now.
  destruct (_preferences_cache s) as [[|e cache]|];
    destruct (_cache_timestamp s) as [stamp|]; cbn [fst snd];
    try apply Hreload.
  destruct (timedelta_seconds (clock s (clock_reads s) - stamp)
            <? _cache_timeout s); cbn [fst snd]; [reflexivity|].
  now rewrite Hreload.
Qed.

Lemma keeps_get_preference (key : string) : keeps_options (get_preference key).
Proof.
  apply keeps_bind; [apply keeps_get_all_preferences|].
  intros a. apply keeps_ret.
Qed.

Lemma keeps_set_multiple_preferences (entries : list (string * PyVal)) :
  keeps_options (set_multiple_preferences entries).
Proof.
  induction entries as [|[k v] rest IH]; [apply keeps_ret|].
  cbn [set_multiple_preferences]. apply keeps_bind; [|intros _; exact IH].
  intros s. apply set_preference_options.
Qed.

Lemma keeps_format_date {tz : Type} (dt : datetime tz) (include_time : bool) :
  keeps_options (format_date dt include_time).
Proof.
  unfold format_date.
  apply keeps_bind; [apply keeps_get_preference|intros d].
  apply keeps_bind; [apply keeps_get_preference|intros t].
  apply keeps_bind; [apply keeps_lift|intros p]. apply keeps_ret.
Qed.

Lemma keeps_lift_zone (r : ExnClass + pytz_tzinfo) :
  keeps_options (lift_zone r).
Proof. destruct r; intros s; reflexivity. Qed.

Lemma keeps_convert_to_user_timezone (dt : datetime pytz_tzinfo)
    (from_tz : string) :
  keeps_options (convert_to_user_timezone dt from_tz).
Proof.
  unfold convert_to_user_timezone.
  apply keeps_bind; [apply keeps_get_preference|intros name].
  apply keeps_bind.
  - destruct (tzinfo dt); [apply keeps_ret|].
    apply keeps_bind; [apply keeps_lift_zone|intros z; apply keeps_ret].
  - intros dt'. apply keeps_bind; [apply keeps_lift_zone|].
    intros z. apply keeps_ret.
Qed.

(** C9.  The catalog is the fixed list of 14 common identifiers, from
    [UTC] to [Australia/Melbourne], followed by the identifiers of
    [pytz.all_timezones] that are not in that list, in lexicographic order;
    when [pytz.all_timezones] names each zone once the catalog has no
    duplicate.  The constructor stores it under ['timezone'], a second
    construction stores the same list, and no operation of the service
    changes [PREFERENCE_OPTIONS] afterwards. *)
Theorem timezone_catalog_built_once (Hcat : NoDup pytz_all_timezones) :
  let remainder := skipn 14 _get_timezone_options in
  firstn 14 _get_timezone_options = common_zones
  /\ List.length common_zones = 14%nat
  /\ hd_error common_zones = Some "UTC"
  /\ last common_zones "" = "Australia/Melbourne"
  /\ Sorted lex_le remainder
  /\ (forall tz, In tz remainder
                 <-> In tz pytz_all_timezones /\ ~ In tz common_zones)
  /\ NoDup _get_timezone_options
  /\ (forall options store clk n,
        dict_get (PREFERENCE_OPTIONS (__init__ options store clk n)) "timezone"
        = Some (Some (map VStr _get_timezone_options)))
  /\ (forall options store clk n store' clk' n',
        let s := __init__ options store clk n in
        PREFERENCE_OPTIONS (__init__ (PREFERENCE_OPTIONS s) store' clk' n')
        = PREFERENCE_OPTIONS s)
  /\ keeps_options get_all_preferences
  /\ (forall key, keeps_options (get_preference key))
  /\ (forall key value, keeps_options (set_preference key value))
  /\ (forall entries, keeps_options (set_multiple_preferences entries))
  /\ keeps_options reset_to_defaults
  /\ (forall dt include_time,
        keeps_options (@format_date _ _ pytz_tzinfo dt include_time))
  /\ (forall dt from_tz, keeps_options (convert_to_user_timezone dt from_tz)).
Proof.
  set (rest := filter (fun tz => negb (existsb (String.eqb tz) common_zones))
                      pytz_all_timezones).
  assert (skipn 14 _get_timezone_options = sorted rest) as Hskip
    by reflexivity.
  assert (forall tz, In tz (sorted rest)
                     <-> In tz pytz_all_timezones /\ ~ In tz common_zones)
    as Hmem.
  { intros tz. split.
    - intros H. apply (Permutation_in _ (sorted_perm rest)) in H.
      apply filter_In in H as [H1 H2]. split; [exact H1|].
      intros Hc. apply in_common_zones in Hc. rewrite Hc in H2. discriminate.
    - intros [H1 H2].
      apply (Permutation_in _ (Permutation_sym (sorted_perm rest))).
      apply filter_In. split; [exact H1|].
      destruct (existsb (String.eqb tz) common_zones) eqn:E; [|reflexivity].
      apply in_common_zones in E. contradiction. }
  cbv zeta. rewrite Hskip.
  split; [reflexivity|]. split; [reflexivity|].
  split; [reflexivity|]. split; [reflexivity|].
  split; [apply sorted_sorted|].
  split; [exact Hmem|].
  split.
  { change _get_timezone_options with (common_zones ++ sorted rest).
    apply NoDup_app.
    - apply NoDup_common_zones.
    - apply (Permutation_NoDup (Permutation_sym (sorted_perm rest))).
      now apply NoDup_filter.
    - intros tz Hc Hr. apply Hmem in Hr. tauto. }
  split; [intros; apply dict_get_set_same|].
  split; [intros; apply dict_set_twice|].
  split; [apply keeps_get_all_preferences|].
  split; [apply keeps_get_preference|].
  split; [intros key value s; apply set_preference_options|].
  split; [apply keeps_set_multiple_preferences|].
  split; [intros s; reflexivity|].
  split; [apply keeps_format_date|].
  apply keeps_convert_to_user_timezone.
Qed.

(** *** Formatting and conversion *)

Lemma dict_get_In {A : Type} (d : list (string * A)) (k : string) (v : A) :
  dict_get d k = Some v -> In (k, v) d.
Proof.
  induction d as [|[k' v'] d IH]; simpl; [discriminate|].
  destruct (String.eqb k' k) eqn:E.
  - apply String.eqb_eq in E. intros [= ->]. left. now subst.
  - intros H. right. now apply IH.
Qed.

Lemma py_eq_str (v : PyVal) (t : string) :
  py_eq v (VStr t) = true <-> v = VStr t.
Proof.
  destruct v; simpl; split; try discriminate; try congruence.
  - intros H. apply String.eqb_eq in H. now subst.
  - intros [= ->]. apply String.eqb_refl.
Qed.

(** C7.  With [d] and [t] the configured date and time formats (any value
    that can be hashed), [format_date] renders [dt] with the pattern the
    fixed table gives for [d], the ISO pattern when [d] is not in the table;
    with [include_time] it appends one space and the 12-hour pattern with
    AM/PM marker when [t] is ['12h'], the 24-hour pattern otherwise.  The
    table maps distinct formats to distinct patterns.  For 2024-12-25 14:30
    with ['DD/MM/YYYY'] and ['12h'] the result is "25/12/2024 02:30 PM". *)
Theorem format_date_follows_preferences {tz : Type}
    (s s1 s2 : State) (dt : datetime tz) (include_time : bool) (d t : PyVal)
    (Hd : get_date_format s = (Return d, s1))
    (Ht : get_time_format s1 = (Return t, s2))
    (Hhash : hashable d = true) :
  (exists date_fmt time_fmt,
      format_date dt include_time s
      = (Return (strftime dt (if include_time
                              then (date_fmt ++ " " ++ time_fmt)%string
                              else date_fmt)), s2)
      /\ (d = VStr "YYYY-MM-DD" -> date_fmt = "%Y-%m-%d")
      /\ (d = VStr "DD/MM/YYYY" -> date_fmt = "%d/%m/%Y")
      /\ (d = VStr "MM/DD/YYYY" -> date_fmt = "%m/%d/%Y")
      /\ (d = VStr "DD.MM.YYYY" -> date_fmt = "%d.%m.%Y")
      /\ (d = VStr "YYYY年MM月DD日" -> date_fmt = "%Y年%m月%d日")
      /\ ((forall k, In k (map fst format_map) -> d <> VStr k) ->
          date_fmt = "%Y-%m-%d")
      /\ (t = VStr "12h" -> time_fmt = "%I:%M %p")
      /\ (t <> VStr "12h" -> time_fmt = "%H:%M"))
  /\ NoDup (map fst format_map) /\ NoDup (map snd format_map)
  /\ (d = VStr "DD/MM/YYYY" -> t = VStr "12h" ->
      forall (sec usec : Z) (zone : option tz),
        format_date (mk_datetime 2024 12 25 14 30 sec usec zone) true s
        = (Return "25/12/2024 02:30 PM", s2)).
Proof.
  assert (forall (x : datetime tz) (b : bool),
             format_date x b s
             = match format_map_get d "%Y-%m-%d" with
               | Return date_fmt =>
                   (Return
                      (strftime x
                         (if b
                          then (date_fmt ++ " " ++
                                (if py_eq t (VStr "12h")
                                 then "%I:%M %p" else "%H:%M"))%string
                          else date_fmt)), s2)
               | Raise e => (Raise e, s2)
               end) as Hrun.
  { intros x b. unfold format_date, bind at 1. rewrite Hd.
    unfold bind at 1. rewrite Ht. unfold bind, lift, ret.
    destruct (format_map_get d "%Y-%m-%d"); reflexivity. }
  split; [|split; [|split]].
  - assert (exists date_fmt,
               format_map_get d "%Y-%m-%d" = Return date_fmt
               /\ (forall k p, d = VStr k -> dict_get format_map k = Some p ->
                               date_fmt = p)
               /\ ((forall k, In k (map fst format_map) -> d <> VStr k) ->
                   date_fmt = "%Y-%m-%d")) as (date_fmt & Hget & Htab & Hiso).
    { destruct d; try discriminate Hhash; cbn [format_map_get];
        try (eexists; split; [reflexivity|]; split;
             [intros; discriminate|reflexivity]).
      destruct (dict_get format_map s0) as [p|] eqn:E.
      - exists p. split; [reflexivity|]. split.
        + intros k p' [= <-] E'. congruence.
        + intros Hno. exfalso. apply (Hno s0); [|reflexivity].
          apply dict_get_In in E. apply (in_map fst) in E. exact E.
      - eexists. split; [reflexivity|]. split; [|reflexivity].
        intros k p' [= <-] E'. congruence. }
    exists date_fmt,
      (if py_eq t (VStr "12h") then "%I:%M %p" else "%H:%M").
    split; [rewrite Hrun, Hget; reflexivity|].
    split; [intros E; now apply (Htab _ _ E)|].
    split; [intros E; now apply (Htab _ _ E)|].
    split; [intros E; now apply (Htab _ _ E)|].
    split; [intros E; now apply (Htab _ _ E)|].
    split; [intros E; now apply (Htab _ _ E)|].
    split; [exact Hiso|].
    split.
    + intros ->. reflexivity.
    + intros Hne. destruct (py_eq t (VStr "12h")) eqn:E; [|reflexivity].
      apply py_eq_str in E. contradiction.
  - simpl. repeat (constructor;
                   [simpl; intros H;
                    repeat (destruct H as [H|H]; [discriminate H|]);
                    exact H|]).
    constructor.
  - simpl. repeat (constructor;
                   [simpl; intros H;
                    repeat (destruct H as [H|H]; [discriminate H|]);
                    exact H|]).
    constructor.
  - intros -> -> sec usec zone. rewrite Hrun. reflexivity.
Qed.


(** *** The cache *)

(** The state after one more clock reading. *)
Lemma datetime_now_spec (s : State) :
  datetime_now s
  = (Return (clock s (clock_reads s)),
     mk_state (db s) (_preferences_cache s) (_cache_timestamp s)
              (_cache_timeout s) (PREFERENCE_OPTIONS s) (clock s)
              (S (clock_reads s))).
Proof. reflexivity. Qed.

(** A non-empty cached snapshot is returned, without reading the store,
    exactly when the seconds field of its age is below the timeout. *)
Lemma get_all_preferences_cached
    (s : State) (e : string * PyVal) (cache : Prefs) (stamp : Z) :
  _preferences_cache s = Some (e :: cache) ->
  _cache_timestamp s = Some stamp ->
  timedelta_seconds (clock s (clock_reads s) - stamp) < _cache_timeout s ->
  get_all_preferences s = (Return (e :: cache), snd (datetime_now s)).
Proof.
  intros Hc Ht Hage. unfold get_all_preferences, bind, get_state, ret.
  rewrite Hc, Ht, datetime_now_spec. apply Z.ltb_lt in Hage.
  now rewrite Hage.
Qed.

Lemma get_all_preferences_expired
    (s : State) (e : string * PyVal) (cache : Prefs) (stamp : Z) :
  _preferences_cache s = Some (e :: cache) ->
  _cache_timestamp s = Some stamp ->
  _cache_timeout s <= timedelta_seconds (clock s (clock_reads s) - stamp) ->
  get_all_preferences s = reload (snd (datetime_now s)).
Proof.
  intros Hc Ht Hage. unfold get_all_preferences, bind, get_state, ret.
  rewrite Hc, Ht, datetime_now_spec. apply Z.ltb_ge in Hage.
  now rewrite Hage.
Qed.

Lemma get_all_preferences_uncached (s : State) :
  _preferences_cache s = None -> get_all_preferences s = reload s.
Proof.
  intros Hc. unfold get_all_preferences, bind, get_state, ret.
  now rewrite Hc.
Qed.

(** Within a day the seconds field is the age: the test is [age < 60 s]. *)
Lemma timedelta_seconds_within_a_day (age : Z) :
  0 <= age < 86400 * 1000000 ->
  (timedelta_seconds age < 60 <-> age < 60 * 1000000).
Proof.
  intros H. unfold timedelta_seconds.
  assert (0 <= age / 1000000 < 86400) as Hq.
  { split; [apply Z.div_pos; lia|apply Z.div_lt_upper_bound; lia]. }
  rewrite Z.mod_small by exact Hq.
  split; intros Hlt.
  - apply Z.nle_gt. intros Hge.
    assert (60 <= age / 1000000) by (apply Z.div_le_lower_bound; lia). lia.
  - apply Z.div_lt_upper_bound; lia.
Qed.

(** From the second day on the days of the age are dropped: an age of
    [days] whole days and less than a minute passes the test. *)
Lemma timedelta_seconds_drops_days (days rest : Z) :
  0 <= rest < 60 * 1000000 ->
  timedelta_seconds (days * (86400 * 1000000) + rest) < 60.
Proof.
  intros H. unfold timedelta_seconds.
  replace (days * (86400 * 1000000) + rest)
    with (rest + (days * 86400) * 1000000) by lia.
  rewrite Z.div_add by lia.
  rewrite Z.add_mod, Z.mod_mul, Z.add_0_r, Z.mod_mod by lia.
  assert (0 <= rest / 1000000 < 60) as Hq.
  { split; [apply Z.div_pos; lia|apply Z.div_lt_upper_bound; lia]. }
  rewrite Z.mod_small; lia.
Qed.

(** After a successful [set_preference] the cache is empty, so the next
    [get_all_preferences] reloads whatever the clock says. *)
Lemma get_all_preferences_after_set
    (s : State) (key : string) (value : PyVal) :
  validates s key value = true ->
  get_all_preferences (snd (set_preference key value s))
  = reload (after_set s key value).
Proof.
  intros Hv. rewrite set_preference_spec, Hv. reflexivity.
Qed.

(** *** Reloading *)

Lemma load_rows_app (l1 l2 : list Row) (p : Prefs) :
  load_rows (l1 ++ l2) p
  = match load_rows l1 p with
    | Return p' => load_rows l2 p'
    | Raise e => Raise e
    end.
Proof.
  revert p. induction l1 as [|r l1 IH]; intros p; [reflexivity|].
  cbn [app load_rows]. destruct (load_row p r); [apply IH|reflexivity].
Qed.

(** A row either raises or sets one key, whatever the map so far. *)
Lemma load_row_shape (r : Row) :
  (exists v, forall p,
      load_row p r = Return (dict_set p (strip_pref (row_key r)) v))
  \/ (forall p, load_row p r = Raise (PyError ClsOverflowError)).
Proof.
  unfold load_row.
  set (value := if py_in _ _ then _ else _).
  destruct (existsb _ _).
  - destruct (py_int value); eauto.
  - eauto.
Qed.

Lemma row_loads_sets (r : Row) :
  row_loads r = true ->
  exists v, forall p,
    load_row p r = Return (dict_set p (strip_pref (row_key r)) v).
Proof.
  unfold row_loads. intros H.
  destruct (load_row_shape r) as [Hv|Hraise]; [exact Hv|].
  rewrite Hraise in H. discriminate.
Qed.

(** The keys a list of rows writes are left alone elsewhere. *)
Lemma load_rows_untouched (rows : list Row) (key : string) :
  forallb row_loads rows = true ->
  (forall r, In r rows -> strip_pref (row_key r) <> key) ->
  forall p, exists p',
    load_rows rows p = Return p' /\ dict_get p' key = dict_get p key.
Proof.
  induction rows as [|r rows IH]; intros Hloads Hkeys p.
  - exists p. split; reflexivity.
  - cbn [forallb] in Hloads. apply andb_true_iff in Hloads as [Hr Hloads].
    destruct (row_loads_sets r Hr) as [v Hv].
    destruct (IH Hloads (fun r' H => Hkeys r' (or_intror H))
                 (dict_set p (strip_pref (row_key r)) v)) as (p' & Hp' & Hget).
    exists p'. cbn [load_rows]. rewrite Hv. split; [exact Hp'|].
    rewrite Hget. apply dict_get_set_other. apply Hkeys. now left.
Qed.

Lemma load_rows_returns (rows : list Row) (p : Prefs) :
  forallb row_loads rows = true -> exists p', load_rows rows p = Return p'.
Proof.
  revert p. induction rows as [|r rows IH]; intros p Hloads.
  - now exists p.
  - cbn [forallb] in Hloads. apply andb_true_iff in Hloads as [Hr Hloads].
    destruct (row_loads_sets r Hr) as [v Hv].
    cbn [load_rows]. rewrite Hv. now apply IH.
Qed.

Lemma reload_spec (s : State) (p : Prefs) :
  load_rows (select_prefs (db s)) DEFAULT_PREFERENCES = Return p ->
  reload s
  = (Return p,
     mk_state (db s) (Some p) (Some (clock s (clock_reads s)))
              (_cache_timeout s) (PREFERENCE_OPTIONS s) (clock s)
              (S (clock_reads s))).
Proof. intros H. unfold reload. run. rewrite H. reflexivity. Qed.

(** On a coherent state whose rows load, [get_all_preferences] returns the
    snapshot of the current store and stays coherent. *)
Lemma get_all_preferences_snapshot (s : State) :
  cache_coherent s -> store_loads (db s) = true ->
  exists p s',
    get_all_preferences s = (Return p, s')
    /\ load_rows (select_prefs (db s)) DEFAULT_PREFERENCES = Return p
    /\ db s' = db s
    /\ cache_coherent s'.
Proof.
  intros Hco Hloads.
  destruct (load_rows_returns _ DEFAULT_PREFERENCES Hloads) as [p Hp].
  assert (forall s0, db s0 = db s ->
            exists s', reload s0 = (Return p, s') /\ db s' = db s
                       /\ cache_coherent s') as Hreload.
  { intros s0 Hdb. rewrite <- Hdb in Hp. rewrite (reload_spec s0 p Hp).
    eexists. split; [reflexivity|]. split; [exact Hdb|].
    intros c [= <-]. exact Hp. }
  unfold get_all_preferences, bind, get_state, ret.
  destruct (_preferences_cache s) as [[|e cache]|] eqn:Hc;
    destruct (_cache_timestamp s) as [stamp|] eqn:Ht;
    try (destruct (Hreload s eq_refl) as (s' & H1 & H2 & H3);
         exists p, s'; now repeat split).
  rewrite datetime_now_spec.
  destruct (timedelta_seconds (clock s (clock_reads s) - stamp)
            <? _cache_timeout s).
  - exists (e :: cache). eexists. split; [reflexivity|].
    split; [now apply Hco|]. split; [reflexivity|].
    intros c Hc'. cbn [_preferences_cache] in Hc'. cbn [db].
    apply Hco. congruence.
  - match goal with
    | |- context [reload ?s0] =>
        destruct (Hreload s0 eq_refl) as (s' & H1 & H2 & H3)
    end.
    exists p, s'. now repeat split.
Qed.

Lemma recognized_In (key : string) :
  recognized key = true -> In key (dict_keys DEFAULT_PREFERENCES).
Proof.
  unfold recognized.
  destruct (dict_get DEFAULT_PREFERENCES key) as [v|] eqn:E; [|discriminate].
  intros _. apply dict_get_In in E. now apply (in_map fst) in E.
Qed.

Lemma strip_pref_db_key (key : string) :
  In key (dict_keys DEFAULT_PREFERENCES) ->
  strip_pref ("pref_" ++ key) = key.
Proof.
  intros H. simpl in H.
  repeat (destruct H as [H|H]; [subst key; reflexivity|]). contradiction.
Qed.

Lemma lookup_row_None (t : Store) (k : string) (r : Row) :
  lookup_row t k = None -> In r t -> row_key r <> k.
Proof.
  induction t as [|r0 t IH]; simpl; [contradiction|].
  destruct (String.eqb (row_key r0) k) eqn:E; [discriminate|].
  intros Hnone [->|Hin]; [|now apply IH].
  intros Heq. apply String.eqb_neq in E. contradiction.
Qed.

(** The rows of a store with recognized rows write recognized keys only. *)
Lemma rows_recognized_keys (t : Store) (r : Row) :
  rows_recognized t = true -> In r (select_prefs t) ->
  exists k, In k (dict_keys DEFAULT_PREFERENCES)
            /\ row_key r = ("pref_" ++ k)%string
            /\ strip_pref (row_key r) = k.
Proof.
  unfold rows_recognized. intros Hall Hin.
  rewrite forallb_forall in Hall. specialize (Hall r Hin).
  apply existsb_exists in Hall as (k & Hk & E).
  apply String.eqb_eq in E. exists k. split; [exact Hk|]. split; [exact E|].
  rewrite E. now apply strip_pref_db_key.
Qed.

(** *** Reading a key *)

Lemma get_preference_snapshot (s : State) (key : string) :
  cache_coherent s -> store_loads (db s) = true ->
  exists p s',
    load_rows (select_prefs (db s)) DEFAULT_PREFERENCES = Return p
    /\ db s' = db s
    /\ cache_coherent s'
    /\ get_preference key s
       = (Return match dict_get p key with
                 | Some v => v
                 | None =>
                     match dict_get DEFAULT_PREFERENCES key with
                     | Some v => v
                     | None => VNone
                     end
                 end, s').
Proof.
  intros Hco Hloads.
  destruct (get_all_preferences_snapshot s Hco Hloads)
    as (p & s' & Hrun & Hp & Hdb & Hco').
  exists p, s'. repeat split; try assumption.
  unfold get_preference, bind. now rewrite Hrun.
Qed.

(** C5.  On a well-formed state (the preference rows are the service's
    own) whose store holds no row [pref_] + [key] for the recognized [key],
    [get_preference] returns the default the schema declares for it; the
    schema has the 19 keys and defaults of the table. *)
Theorem get_preference_default_when_unset (s : State) (key : string)
    (Hkey : recognized key = true)
    (Hwf : well_formed s)
    (Hunset : lookup_row (db s) ("pref_" ++ key)%string = None) :
  (exists default s',
      dict_get DEFAULT_PREFERENCES key = Some default
      /\ get_preference key s = (Return default, s'))
  /\ List.length DEFAULT_PREFERENCES = 19%nat
  /\ NoDup (dict_keys DEFAULT_PREFERENCES)
  /\ DEFAULT_PREFERENCES
     = [ ("timezone", VStr "UTC"); ("date_format", VStr "YYYY-MM-DD");
         ("time_format", VStr "24h"); ("messages_per_page", VInt 50);
         ("auto_refresh_interval", VInt 30);
         ("show_message_previews", VBool true);
         ("show_reaction_notifications", VBool true);
         ("enable_auto_reactions", VBool true);
         ("default_emoji_mode", VStr "random"); ("language", VStr "en");
         ("show_unmonitored_groups", VBool false);
         ("compact_message_view", VBool false);
         ("enable_ai_features", VBool true);
         ("default_ai_provider", VStr "ollama");
         ("activity_chart_style", VStr "bars");
         ("dashboard_refresh_rate", VInt 60);
         ("filter_persist_navigation", VBool true);
         ("show_deleted_messages", VBool false);
         ("notification_sound", VBool true) ].
Proof.
  destruct Hwf as (Hrows & Hloads & Hcache).
  split; [|split; [reflexivity|split; [|reflexivity]]].
  - destruct (get_preference_snapshot s key Hcache Hloads)
      as (p & s' & Hp & _ & _ & Hrun).
    assert (forall r, In r (select_prefs (db s)) ->
                      strip_pref (row_key r) <> key) as Hother.
    { intros r Hr Hstrip.
      destruct (rows_recognized_keys _ _ Hrows Hr) as (k & _ & Ek & Es).
      assert (In r (db s)) as Hin by (apply filter_In in Hr; tauto).
      apply (lookup_row_None _ _ _ Hunset Hin). congruence. }
    destruct (load_rows_untouched _ key Hloads Hother DEFAULT_PREFERENCES)
      as (p' & Hp' & Hget).
    assert (p' = p) as -> by congruence.
    unfold recognized in Hkey.
    destruct (dict_get DEFAULT_PREFERENCES key) as [d|] eqn:Ed;
      [|discriminate].
    exists d. exists s'. split; [reflexivity|].
    rewrite Hrun, Hget. reflexivity.
  - unfold dict_keys. simpl.
    repeat (constructor;
            [simpl; intros H;
             repeat (destruct H as [H|H]; [discriminate H|]); exact H|]).
    constructor.
Qed.

(** C10.  For a key outside the schema, on a well-formed state,
    [get_preference] does not raise and returns [None]: the snapshot has no
    entry for it and neither have the defaults.  Only [set_preference]
    rejects the key. *)
Theorem get_preference_unknown_key_returns_None (s : State) (key : string)
    (Hkey : recognized key = false)
    (Hwf : well_formed s) :
  (exists p s',
      get_all_preferences s = (Return p, s')
      /\ dict_get p key = None
      /\ dict_get DEFAULT_PREFERENCES key = None
      /\ get_preference key s = (Return VNone, s'))
  /\ (forall value,
        set_preference key value s = (Raise (UnknownPreferenceKey key), s)).
Proof.
  destruct Hwf as (Hrows & Hloads & Hcache).
  assert (dict_get DEFAULT_PREFERENCES key = None) as Hdef.
  { unfold recognized in Hkey.
    now destruct (dict_get DEFAULT_PREFERENCES key). }
  split.
  - destruct (get_all_preferences_snapshot s Hcache Hloads)
      as (p & s' & Hrun & Hp & _ & _).
    assert (forall r, In r (select_prefs (db s)) ->
                      strip_pref (row_key r) <> key) as Hother.
    { intros r Hr Hstrip.
      destruct (rows_recognized_keys _ _ Hrows Hr) as (k & Hk & _ & Es).
      assert (recognized key = true); [|congruence].
      rewrite <- Hstrip, Es. unfold recognized.
      simpl in Hk.
      repeat (destruct Hk as [Hk|Hk]; [subst k; reflexivity|]).
      contradiction. }
    destruct (load_rows_untouched _ key Hloads Hother DEFAULT_PREFERENCES)
      as (p' & Hp' & Hget).
    assert (p' = p) as -> by congruence.
    exists p, s'. split; [exact Hrun|].
    split; [congruence|]. split; [exact Hdef|].
    unfold get_preference, bind, ret. rewrite Hrun, Hget, Hdef. reflexivity.
  - intros value. rewrite set_preference_spec.
    unfold validates, validation_error. now rewrite Hkey.
Qed.

(** *** Round trip *)

Lemma py_eq_typed (x v : PyVal) (T : PyType) :
  py_eq x v = true -> type_of x = Some T -> has_type v T = true -> v = x.
Proof.
  destruct x, v, T; simpl; try discriminate; intros H _ _.
  - apply Bool.eqb_prop in H. now subst.
  - apply Z.eqb_eq in H. now subst.
  - apply String.eqb_eq in H. now subst.
Qed.

Lemma options_of_key (key : string) (T : PyType) :
  In key (dict_keys DEFAULT_PREFERENCES) ->
  String.eqb "timezone" key = false ->
  declared_type key = Some T -> T <> TBool ->
  exists o options,
    dict_get PREFERENCE_OPTIONS_initial key = Some (Some (o :: options))
    /\ forall x, In x (o :: options) -> type_of x = Some T.
Proof.
  intros Hin Htz HT Hnb. simpl in Hin.
  repeat (destruct Hin as [Hin|Hin];
          [subst key; try discriminate Htz;
           injection HT as <-; try (exfalso; apply Hnb; reflexivity);
           do 2 eexists; (split; [reflexivity|]);
           intros x Hx; simpl in Hx;
           repeat (destruct Hx as [Hx|Hx]; [subst x; reflexivity|]);
           contradiction|]).
  contradiction.
Qed.

Lemma int_keys_declared (key : string) :
  In key (dict_keys DEFAULT_PREFERENCES) ->
  existsb (String.eqb key)
    ["messages_per_page"; "auto_refresh_interval"; "dashboard_refresh_rate"]
  = true ->
  declared_type key = Some TInt.
Proof.
  intros Hin. simpl in Hin.
  repeat (destruct Hin as [Hin|Hin];
          [subst key; intros H; try discriminate H; reflexivity|]).
  contradiction.
Qed.

Lemma common_zones_in_catalog :
  exists zone rest, map VStr _get_timezone_options = VStr zone :: rest.
Proof. do 2 eexists. reflexivity. Qed.

(** Under the laws, a typed value that passes validation on a constructed
    service is read back from its stored form. *)
Lemma allowed_reads_back `{LAWS : !RuntimeLaws}
    (s : State) (key : string) (value : PyVal) (T : PyType) :
  PREFERENCE_OPTIONS s = constructed_options ->
  declared_type key = Some T -> has_type value T = true ->
  allowed s key value = true ->
  reads_back value.
Proof.
  intros Hopts HT Hty Hal.
  assert (recognized key = true) as Hrec.
  { unfold recognized. unfold declared_type in HT.
    now destruct (dict_get DEFAULT_PREFERENCES key). }
  apply recognized_In in Hrec.
  destruct T.
  - destruct value; try discriminate Hty. apply json_booleans.
  - (* integer keys *)
    unfold allowed, allowed_values in Hal. rewrite Hopts in Hal.
    assert (String.eqb "timezone" key = false) as Htz.
    { destruct (String.eqb "timezone" key) eqn:E; [|reflexivity].
      apply String.eqb_eq in E. subst key. discriminate HT. }
    unfold constructed_options in Hal.
    rewrite dict_get_set_other in Hal
      by (intros E; subst key; discriminate Htz).
    destruct (options_of_key key TInt Hrec Htz HT ltac:(discriminate))
      as (o & options & Hget & Htyped).
    rewrite Hget in Hal. apply existsb_exists in Hal as (x & Hx & Heq).
    rewrite (py_eq_typed x value TInt Heq (Htyped x Hx) Hty).
    exact (json_options key (o :: options) x Hget Hx).
  - (* string keys *)
    unfold allowed, allowed_values in Hal. rewrite Hopts in Hal.
    unfold constructed_options in Hal.
    destruct (String.eqb "timezone" key) eqn:Htz.
    + apply String.eqb_eq in Htz. subst key.
      rewrite dict_get_set_same in Hal.
      destruct common_zones_in_catalog as (z0 & rest & Hcat).
      rewrite Hcat in Hal. rewrite <- Hcat in Hal.
      apply existsb_exists in Hal as (x & Hx & Heq).
      apply in_map_iff in Hx as (zone & <- & Hzone).
      rewrite (py_eq_typed (VStr zone) value TStr Heq eq_refl Hty).
      now apply json_zones.
    + rewrite dict_get_set_other in Hal
        by (intros E; subst key; discriminate Htz).
      destruct (options_of_key key TStr Hrec Htz HT ltac:(discriminate))
        as (o & options & Hget & Htyped).
      rewrite Hget in Hal. apply existsb_exists in Hal as (x & Hx & Heq).
      rewrite (py_eq_typed x value TStr Heq (Htyped x Hx) Hty).
      exact (json_options key (o :: options) x Hget Hx).
Qed.

(** The row [set_preference] writes for a typed value that is read back
    sets the key to that very value on reload. *)
Lemma load_row_reads_back (key : string) (value : PyVal) (T : PyType)
    (p : Prefs) :
  declared_type key = Some T -> has_type value T = true ->
  reads_back value ->
  load_row p (mk_row ("pref_" ++ key) (value_str value))
  = Return (dict_set p key value).
Proof.
  intros HT Hty Hrb.
  assert (In key (dict_keys DEFAULT_PREFERENCES)) as Hrec.
  { apply recognized_In. unfold recognized. unfold declared_type in HT.
    now destruct (dict_get DEFAULT_PREFERENCES key). }
  unfold load_row. cbn [row_key row_value].
  rewrite (strip_pref_db_key key Hrec).
  destruct (existsb (String.eqb key) _) eqn:Eint.
  - apply (int_keys_declared key Hrec) in Eint.
    assert (T = TInt) as -> by congruence.
    destruct value; try discriminate Hty.
    cbn [reads_back value_str] in *. rewrite Hrb. reflexivity.
  - destruct value; try discriminate Hty; cbn [reads_back value_str] in *.
    + rewrite Hrb. reflexivity.
    + rewrite Hrb. reflexivity.
    + destruct Hrb as (Hjson & Ht & Hf). rewrite Hjson, Ht, Hf. reflexivity.
Qed.

Lemma sql_like_db_key (key : string) : sql_like_pref ("pref_" ++ key) = true.
Proof. reflexivity. Qed.

Lemma select_prefs_insert (k v : string) (t : Store) :
  sql_like_pref k = true ->
  select_prefs (insert_or_replace k v t)
  = filter (fun r => negb (String.eqb (row_key r) k)) (select_prefs t)
    ++ [mk_row k v].
Proof.
  intros Hk. unfold select_prefs, insert_or_replace.
  rewrite filter_app. cbn [filter row_key]. rewrite Hk. f_equal.
  induction t as [|r t IH]; [reflexivity|]. cbn [filter].
  destruct (String.eqb (row_key r) k) eqn:E1;
    destruct (sql_like_pref (row_key r)) eqn:E2;
    cbn [negb filter]; rewrite ?E1, ?E2; cbn [negb]; now rewrite IH.
Qed.

Lemma forallb_filter {A : Type} (f g : A -> bool) (l : list A) :
  forallb f l = true -> forallb f (filter g l) = true.
Proof.
  induction l as [|x l IH]; [reflexivity|]. cbn [forallb filter].
  intros H. apply andb_true_iff in H as [Hx Hl].
  destruct (g x); cbn [forallb]; [rewrite Hx|]; now apply IH.
Qed.

(** C2.  On a constructed service whose stored rows load, for a recognized
    key and a value of the key's declared type that passes validation:
    [set_preference] returns, stores the value as a string under
    [pref_] + key, and the next [get_preference] (which reloads, the cache
    having been cleared) returns that value with its type.  The runtime
    laws state what is used of [json.loads] and of the catalog. *)
Theorem set_then_get_round_trip `{LAWS : !RuntimeLaws}
    (s : State) (key : string) (value : PyVal) (T : PyType)
    (Hconstructed : PREFERENCE_OPTIONS s = constructed_options)
    (Hloads : store_loads (db s) = true)
    (Htype : declared_type key = Some T)
    (Hvalue : has_type value T = true)
    (Hallowed : allowed s key value = true) :
  exists s1 s2,
    set_preference key value s = (Return true, s1)
    /\ lookup_row (db s1) ("pref_" ++ key)%string = Some (value_str value)
    /\ _preferences_cache s1 = None
    /\ get_preference key s1 = (Return value, s2).
Proof.
  assert (recognized key = true) as Hrec.
  { unfold recognized. unfold declared_type in Htype.
    now destruct (dict_get DEFAULT_PREFERENCES key). }
  pose proof (allowed_reads_back s key value T Hconstructed Htype Hvalue
                Hallowed) as Hrb.
  set (rows := filter (fun r => negb (String.eqb (row_key r) ("pref_" ++ key)))
                      (select_prefs (db s))).
  destruct (load_rows_returns rows DEFAULT_PREFERENCES
              (forallb_filter _ _ _ Hloads)) as [p Hp].
  assert (load_rows (select_prefs (db (after_set s key value)))
                    DEFAULT_PREFERENCES
          = Return (dict_set p key value)) as Hload.
  { cbn [after_set db].
    rewrite select_prefs_insert by apply sql_like_db_key.
    fold rows. rewrite load_rows_app, Hp. cbn [load_rows].
    now rewrite (load_row_reads_back key value T p Htype Hvalue Hrb). }
  exists (after_set s key value). eexists.
  split.
  { rewrite set_preference_spec. unfold validates.
    now rewrite Hrec, Hallowed. }
  split; [apply lookup_insert_same|].
  split; [reflexivity|].
  unfold get_preference, bind.
  rewrite get_all_preferences_uncached by reflexivity.
  rewrite (reload_spec _ _ Hload). unfold ret.
  now rewrite dict_get_set_same.
Qed.

(** *** Well-formed states

    The states the service produces from a store without preference rows
    are well-formed: construction, reading, resetting and writing typed
    valid values keep the invariant. *)

Lemma well_formed_init (options : list (string * option (list PyVal)))
    (store : Store) (clk : nat -> Z) (n : nat) :
  select_prefs store = [] -> well_formed (__init__ options store clk n).
Proof.
  intros Hsel. unfold well_formed, rows_recognized, store_loads.
  cbn [__init__ db]. rewrite Hsel. repeat split.
  intros cache H. discriminate H.
Qed.

Lemma well_formed_get_all_preferences (s : State) :
  well_formed s -> well_formed (snd (get_all_preferences s)).
Proof.
  intros (Hrows & Hloads & Hco).
  destruct (get_all_preferences_snapshot s Hco Hloads)
    as (p & s' & Hrun & _ & Hdb & Hco').
  rewrite Hrun. cbn [snd]. unfold well_formed. rewrite Hdb. now repeat split.
Qed.

Lemma well_formed_reset_to_defaults (s : State) :
  well_formed (snd (reset_to_defaults s)).
Proof.
  assert (db (snd (reset_to_defaults s)) = delete_prefs (db s)) as Hdb
    by reflexivity.
  unfold well_formed, rows_recognized, store_loads.
  rewrite Hdb, select_delete_prefs. repeat split.
  intros cache H. discriminate H.
Qed.

Lemma well_formed_set_preference `{LAWS : !RuntimeLaws}
    (s : State) (key : string) (value : PyVal) (T : PyType) :
  well_formed s ->
  PREFERENCE_OPTIONS s = constructed_options ->
  declared_type key = Some T -> has_type value T = true ->
  well_formed (snd (set_preference key value s)).
Proof.
  intros Hwf Hopts HT Hty. rewrite set_preference_spec.
  destruct (validates s key value) eqn:Hv; [|exact Hwf].
  apply andb_true_iff in Hv as [Hrec Hal].
  destruct Hwf as (Hrows & Hloads & _).
  pose proof (allowed_reads_back s key value T Hopts HT Hty Hal) as Hrb.
  cbn [snd]. unfold well_formed, rows_recognized, store_loads.
  cbn [after_set db _preferences_cache].
  rewrite select_prefs_insert by apply sql_like_db_key.
  rewrite !forallb_app. cbn [forallb row_key].
  split; [|split].
  - rewrite (forallb_filter _ _ _ Hrows). rewrite andb_true_r. cbn [andb].
    apply existsb_exists. exists key.
    split; [now apply recognized_In|apply String.eqb_refl].
  - rewrite (forallb_filter _ _ _ Hloads). rewrite andb_true_r. cbn [andb].
    unfold row_loads.
    now rewrite (load_row_reads_back key value T [] HT Hty Hrb).
  - intros cache H. discriminate H.
Qed.


(** *** Writes compose *)

Lemma filter_twice {A : Type} (f : A -> bool) (l : list A) :
  filter f (filter f l) = filter f l.
Proof.
  induction l as [|x l IH]; [reflexivity|]. cbn [filter].
  destruct (f x) eqn:E; cbn [filter]; rewrite ?E; now rewrite IH.
Qed.

Lemma insert_or_replace_twice (k v w : string) (t : Store) :
  insert_or_replace k v (insert_or_replace k w t) = insert_or_replace k v t.
Proof.
  unfold insert_or_replace. rewrite filter_app, filter_twice.
  cbn [filter row_key]. rewrite String.eqb_refl. cbn [negb].
  now rewrite app_nil_r.
Qed.

(** X1.  Writing a key again replaces the earlier write: after two valid
    [set_preference] calls on one key the state is the one the second call
    alone would leave; in particular a repeated call changes nothing. *)
Theorem set_preference_overwrites
    (s : State) (key : string) (first second : PyVal)
    (Hfirst : validates s key first = true)
    (Hsecond : validates s key second = true) :
  set_preference key second (snd (set_preference key first s))
  = set_preference key second s
  /\ snd (set_preference key first (snd (set_preference key first s)))
     = snd (set_preference key first s).
Proof.
  assert (forall a b, validates s key a = true -> validates s key b = true ->
            set_preference key b (snd (set_preference key a s))
            = set_preference key b s) as H.
  { intros a b Ha Hb.
    rewrite (set_preference_spec s key a), Ha. cbn [snd].
    rewrite !set_preference_spec, validates_after_set, Hb.
    unfold after_set. cbn [db _cache_timestamp _cache_timeout
                           PREFERENCE_OPTIONS clock clock_reads].
    now rewrite insert_or_replace_twice. }
  split; [now apply H|]. now rewrite H.
Qed.

(** X2.  [set_preference] touches one row only: whether it returns or
    raises, every row under another key, preference or not, keeps its
    value and its place among the rows of other keys. *)
Theorem set_preference_keeps_other_rows
    (s : State) (key : string) (value : PyVal) :
  let s' := snd (set_preference key value s) in
  let others :=
    filter (fun r => negb (String.eqb (row_key r) ("pref_" ++ key))) in
  others (db s') = others (db s)
  /\ forall k, k <> ("pref_" ++ key)%string ->
               lookup_row (db s') k = lookup_row (db s) k.
Proof.
  cbv zeta. rewrite set_preference_spec.
  destruct (validates s key value); cbn [snd]; [|split; reflexivity].
  cbn [after_set db]. split.
  - unfold insert_or_replace. rewrite filter_app, filter_twice.
    cbn [filter row_key]. rewrite String.eqb_refl. cbn [negb].
    apply app_nil_r.
  - intros k Hk. now apply lookup_insert_other.
Qed.

Lemma delete_prefs_insert (key v : string) (t : Store) :
  delete_prefs (insert_or_replace ("pref_" ++ key) v t) = delete_prefs t.
Proof.
  unfold delete_prefs, insert_or_replace. rewrite filter_app.
  cbn [filter row_key]. rewrite sql_like_db_key. cbn [negb].
  rewrite app_nil_r.
  induction t as [|r t IH]; [reflexivity|]. cbn [filter].
  destruct (String.eqb (row_key r) ("pref_" ++ key)) eqn:E; cbn [negb].
  - apply String.eqb_eq in E. rewrite E, sql_like_db_key. cbn [negb].
    exact IH.
  - cbn [filter].
    destruct (negb (sql_like_pref (row_key r))); now rewrite IH.
Qed.

Lemma delete_prefs_persist (entries : list (string * PyVal)) (t : Store) :
  delete_prefs (persist t entries) = delete_prefs t.
Proof.
  revert t. induction entries as [|e rest IH]; intros t; [reflexivity|].
  unfold persist in *. cbn [fold_left]. rewrite IH.
  apply delete_prefs_insert.
Qed.

(** Whatever the batch, the state it leaves is the one its successful
    writes left: those of some prefix of the entries. *)
Lemma set_multiple_preferences_state
    (entries : list (string * PyVal)) (s : State) :
  exists applied,
    snd (set_multiple_preferences entries s) = after_sets s applied.
Proof.
  revert s. induction entries as [|[k v] rest IH]; intros s.
  - now exists [].
  - cbn [set_multiple_preferences]. unfold bind.
    rewrite set_preference_spec.
    destruct (validates s k v).
    + destruct (IH (after_set s k v)) as [applied Ha].
      exists ((k, v) :: applied). exact Ha.
    + now exists [].
Qed.

Lemma after_sets_fields (entries : list (string * PyVal)) (s : State) :
  _cache_timestamp (after_sets s entries) = _cache_timestamp s
  /\ _cache_timeout (after_sets s entries) = _cache_timeout s
  /\ PREFERENCE_OPTIONS (after_sets s entries) = PREFERENCE_OPTIONS s
  /\ clock (after_sets s entries) = clock s
  /\ clock_reads (after_sets s entries) = clock_reads s.
Proof.
  revert s. induction entries as [|e rest IH]; intros s;
    [repeat split|].
  unfold after_sets in *. cbn [fold_left].
  destruct (IH (after_set s (fst e) (snd e))) as (H1 & H2 & H3 & H4 & H5).
  now rewrite H1, H2, H3, H4, H5.
Qed.

(** X3.  [reset_to_defaults] undoes every write: after any batch, complete
    or interrupted by an invalid entry, a reset leaves the state a reset
    alone would have left, and the rows outside the preferences are those
    of the start. *)
Theorem reset_to_defaults_undoes_writes
    (s : State) (entries : list (string * PyVal)) :
  snd (reset_to_defaults (snd (set_multiple_preferences entries s)))
  = snd (reset_to_defaults s)
  /\ db (snd (reset_to_defaults s))
     = filter (fun r => negb (sql_like_pref (row_key r))) (db s)
  /\ snd (reset_to_defaults (snd (reset_to_defaults s)))
     = snd (reset_to_defaults s).
Proof.
  split; [|split].
  - destruct (set_multiple_preferences_state entries s) as [applied ->].
    destruct (after_sets_fields applied s) as (H1 & H2 & H3 & H4 & H5).
    unfold reset_to_defaults, bind, get_state, set_db, set_cache, ret.
    cbn [snd db _cache_timestamp _cache_timeout PREFERENCE_OPTIONS clock
         clock_reads].
    rewrite H1, H2, H3, H4, H5, db_after_sets, delete_prefs_persist.
    reflexivity.
  - reflexivity.
  - unfold reset_to_defaults, bind, get_state, set_db, set_cache, ret.
    cbn [snd db _cache_timestamp _cache_timeout PREFERENCE_OPTIONS clock
         clock_reads].
    unfold delete_prefs. now rewrite filter_twice.
Qed.


(** *** Reads *)

Lemma read_only_ret {A : Type} (a : A) : read_only (ret a).
Proof. intros s. reflexivity. Qed.

Lemma read_only_lift {A : Type} (o : Outcome A) : read_only (lift o).
Proof. intros s. reflexivity. Qed.

Lemma read_only_bind {A B : Type} (c : M A) (k : A -> M B) :
  read_only c -> (forall a, read_only (k a)) -> read_only (bind c k).
Proof.
  intros Hc Hk s. unfold bind. specialize (Hc s).
  destruct (c s) as [[a|e] s']; cbn [snd] in *; [|exact Hc].
  now rewrite Hk.
Qed.

Lemma read_only_try_except {A : Type} (body : M A) (handler : Exn -> M A) :
  read_only body -> (forall e, read_only (handler e)) ->
  read_only (try_except body handler).
Proof.
  intros Hb Hh s. unfold try_except. specialize (Hb s).
  destruct (body s) as [[a|e] s']; cbn [snd] in *; [exact Hb|].
  now rewrite Hh.
Qed.

Lemma read_only_reload : read_only reload.
Proof.
  intros s. unfold reload. run.
  destruct (load_rows (select_prefs (db s)) DEFAULT_PREFERENCES); reflexivity.
Qed.

Lemma read_only_get_all_preferences : read_only get_all_preferences.
Proof.
  intros s. unfold get_all_preferences, bind, get_state, ret, datetime_now.
  destruct (_preferences_cache s) as [[|e cache]|];
    destruct (_cache_timestamp s) as [stamp|]; cbn [fst snd];
    try apply read_only_reload.
  destruct (timedelta_seconds (clock s (clock_reads s) - stamp)
            <? _cache_timeout s); cbn [fst snd]; [reflexivity|].
  now rewrite read_only_reload.
Qed.

Lemma read_only_get_preference (key : string) : read_only (get_preference key).
Proof.
  apply read_only_bind; [apply read_only_get_all_preferences|].
  intros p. apply read_only_ret.
Qed.

Lemma read_only_format_date {tz : Type} (dt : datetime tz) (b : bool) :
  read_only (format_date dt b).
Proof.
  unfold format_date.
  apply read_only_bind; [apply read_only_get_preference|intros d].
  apply read_only_bind; [apply read_only_get_preference|intros t].
  apply read_only_bind; [apply read_only_lift|intros p]. apply read_only_ret.
Qed.

Lemma read_only_lift_zone (r : ExnClass + pytz_tzinfo) :
  read_only (lift_zone r).
Proof. destruct r; intros s; reflexivity. Qed.

Lemma read_only_lift_class {A : Type} (r : ExnClass + A) :
  read_only (lift_class r).
Proof. destruct r; intros s; reflexivity. Qed.

Lemma read_only_convert_to_user_timezone (dt : datetime pytz_tzinfo)
    (from_tz : string) :
  read_only (convert_to_user_timezone dt from_tz).
Proof.
  unfold convert_to_user_timezone.
  apply read_only_bind; [apply read_only_get_preference|intros name].
  apply read_only_bind.
  - destruct (tzinfo dt); [apply read_only_ret|].
    apply read_only_bind; [apply read_only_lift_zone|].
    intros z. apply read_only_ret.
  - intros dt'. apply read_only_bind; [apply read_only_lift_zone|].
    intros z. apply read_only_ret.
Qed.

Lemma read_only_metadata_loop (title : string -> string)
    (items : list (string * PyVal)) (metadata : list (string * Metadata)) :
  read_only (metadata_loop title items metadata).
Proof.
  revert metadata. induction items as [|[k d] items IH]; intros metadata;
    [apply read_only_ret|].
  cbn [metadata_loop].
  apply read_only_bind; [apply read_only_get_preference|intros current].
  apply read_only_bind; [intros s; reflexivity|intros s']. apply IH.
Qed.

Lemma read_only_new_service : read_only new_service.
Proof. intros s. reflexivity. Qed.

Lemma read_only_format_timestamp
    (fromtimestamp : Z -> ExnClass + datetime pytz_tzinfo)
    (timestamp_ms : option Z) (user_timezone : option string) (b : bool) :
  read_only (format_timestamp fromtimestamp timestamp_ms user_timezone b).
Proof.
  unfold format_timestamp.
  destruct timestamp_ms as [[|ms|ms]|]; try apply read_only_ret;
    (apply read_only_try_except; [|intros e; apply read_only_ret];
     apply read_only_bind; [apply read_only_new_service|intros _];
     apply read_only_bind; [apply read_only_lift_class|intros dt];
     apply read_only_bind;
     [destruct user_timezone as [[|c r]|];
      try apply read_only_get_preference; apply read_only_ret|intros zone];
     apply read_only_bind; [|intros dt'; apply read_only_format_date];
     apply read_only_try_except; [|intros e; apply read_only_ret];
     apply read_only_bind; [apply read_only_lift_zone|];
     intros z; apply read_only_ret).
Qed.

(** X4.  No read writes the store: [get_all_preferences],
    [get_preference], [export_preferences], [format_date],
    [convert_to_user_timezone], [get_preference_metadata] and the page
    helpers [get_user_timezone] and [format_timestamp] leave every row as it
    was, whether they return or raise. *)
Theorem reads_do_not_write_the_store :
  read_only get_all_preferences
  /\ (forall key, read_only (get_preference key))
  /\ read_only export_preferences
  /\ (forall dt include_time,
        read_only (@format_date _ _ pytz_tzinfo dt include_time))
  /\ (forall dt from_tz, read_only (convert_to_user_timezone dt from_tz))
  /\ (forall title, read_only (get_preference_metadata title))
  /\ read_only get_user_timezone
  /\ (forall fromtimestamp timestamp_ms user_timezone include_time,
        read_only (format_timestamp fromtimestamp timestamp_ms user_timezone
                                    include_time)).
Proof.
  split; [apply read_only_get_all_preferences|].
  split; [apply read_only_get_preference|].
  split; [apply read_only_get_all_preferences|].
  split; [apply read_only_format_date|].
  split; [apply read_only_convert_to_user_timezone|].
  split; [intros title; apply read_only_metadata_loop|].
  split.
  { apply read_only_bind; [apply read_only_new_service|].
    intros _. apply read_only_get_preference. }
  apply read_only_format_timestamp.
Qed.

(** What [get_all_preferences] returns on a coherent state is the snapshot
    of the current store. *)
Lemma get_all_preferences_returns (s s' : State) (p : Prefs) :
  cache_coherent s ->
  get_all_preferences s = (Return p, s') ->
  load_rows (select_prefs (db s)) DEFAULT_PREFERENCES = Return p.
Proof.
  intros Hco.
  assert (forall s0, db s0 = db s -> reload s0 = (Return p, s') ->
            load_rows (select_prefs (db s)) DEFAULT_PREFERENCES = Return p)
    as Hreload.
  { intros s0 Hdb. unfold reload. run. rewrite Hdb.
    destruct (load_rows (select_prefs (db s)) DEFAULT_PREFERENCES);
      cbn; congruence. }
  unfold get_all_preferences, bind, get_state, ret.
  destruct (_preferences_cache s) as [[|e cache]|] eqn:Hc;
    destruct (_cache_timestamp s) as [stamp|] eqn:Ht;
    try (apply Hreload; reflexivity).
  rewrite datetime_now_spec.
  destruct (timedelta_seconds (clock s (clock_reads s) - stamp)
            <? _cache_timeout s).
  - intros [= <- _]. now apply Hco.
  - apply Hreload. reflexivity.
Qed.

Lemma dict_set_keys {A : Type} (d : list (string * A)) (k : string) (v : A) :
  exists extra, map fst (dict_set d k v) = map fst d ++ extra.
Proof.
  induction d as [|[k' v'] d IH]; simpl.
  - now exists [k].
  - destruct (String.eqb k' k); simpl.
    + exists []. now rewrite app_nil_r.
    + destruct IH as [extra ->]. now exists extra.
Qed.

Lemma load_row_keys (r : Row) (p p' : Prefs) :
  load_row p r = Return p' ->
  exists extra, map fst p' = map fst p ++ extra.
Proof.
  destruct (load_row_shape r) as [[v Hv]|Hraise].
  - rewrite Hv. intros [= <-]. apply dict_set_keys.
  - rewrite Hraise. discriminate.
Qed.

Lemma load_rows_keys (rows : list Row) (p p' : Prefs) :
  load_rows rows p = Return p' ->
  exists extra, map fst p' = map fst p ++ extra.
Proof.
  revert p. induction rows as [|r rows IH]; intros p; cbn [load_rows].
  - intros [= <-]. exists []. now rewrite app_nil_r.
  - destruct (load_row p r) as [p1|e] eqn:E; [|discriminate].
    intros H. destruct (load_row_keys _ _ _ E) as [x1 H1].
    destruct (IH _ H) as [x2 H2]. exists (x1 ++ x2).
    now rewrite H2, H1, app_assoc.
Qed.

Lemma dict_get_In_keys {A : Type} (d : list (string * A)) (k : string) :
  In k (map fst d) -> exists v, dict_get d k = Some v.
Proof.
  induction d as [|[k' v'] d IH]; simpl; [contradiction|].
  destruct (String.eqb k' k) eqn:E; [eauto|].
  intros [H|H]; [|now apply IH].
  apply String.eqb_neq in E. contradiction.
Qed.

(** X5.  A snapshot is total on the schema: whatever the store holds,
    when [get_all_preferences] returns on a coherent state the map starts
    with the 19 schema keys in schema order (stored rows under other names
    come after them), so every recognized key has a value in it. *)
Theorem snapshot_covers_the_schema (s s' : State) (p : Prefs)
    (Hcache : cache_coherent s)
    (Hrun : get_all_preferences s = (Return p, s')) :
  (exists extra, map fst p = dict_keys DEFAULT_PREFERENCES ++ extra)
  /\ (forall key, recognized key = true ->
                  exists v, dict_get p key = Some v).
Proof.
  apply (get_all_preferences_returns s s' p Hcache) in Hrun.
  destruct (load_rows_keys _ _ _ Hrun) as [extra Hkeys].
  split; [now exists extra|].
  intros key Hkey. apply dict_get_In_keys. rewrite Hkeys.
  apply in_or_app. left. now apply recognized_In.
Qed.




(** *** The cache window *)

Lemma reload_returns (s s1 : State) (p : Prefs) :
  reload s = (Return p, s1) ->
  load_rows (select_prefs (db s)) DEFAULT_PREFERENCES = Return p
  /\ s1 = mk_state (db s) (Some p) (Some (clock s (clock_reads s)))
                   (_cache_timeout s) (PREFERENCE_OPTIONS s) (clock s)
                   (S (clock_reads s)).
Proof.
  unfold reload. run.
  destruct (load_rows (select_prefs (db s)) DEFAULT_PREFERENCES);
    cbn; [|discriminate].
  intros [= <- <-]. split; reflexivity.
Qed.

(** X7.  Two reads within the window agree: after a read that loaded the
    snapshot, a second read whose clock reading is less than 60 seconds
    later returns the same snapshot without consulting the store, even if
    the store has been replaced in between, and keeps the timestamp. *)
Theorem reads_within_the_window_agree
    (s s1 : State) (p : Prefs) (t : Store)
    (Hcache : _preferences_cache s = None)
    (Htimeout : _cache_timeout s = 60)
    (Hrun : get_all_preferences s = (Return p, s1))
    (Hage : 0 <= clock s (S (clock_reads s)) - clock s (clock_reads s)
            < 60 * 1000000) :
  let s2 := snd (set_db t s1) in
  get_all_preferences s2 = (Return p, snd (datetime_now s2))
  /\ db (snd (datetime_now s2)) = t
  /\ _cache_timestamp (snd (datetime_now s2))
     = Some (clock s (clock_reads s)).
Proof.
  rewrite get_all_preferences_uncached in Hrun by exact Hcache.
  apply reload_returns in Hrun as [Hload ->].
  destruct (load_rows_keys _ _ _ Hload) as [extra Hkeys].
  destruct p as [|e p]; [discriminate Hkeys|].
  cbv zeta. split; [|split; reflexivity].
  apply (get_all_preferences_cached _ e p (clock s (clock_reads s)));
    try reflexivity.
  cbn [set_db snd clock clock_reads _cache_timeout]. rewrite Htimeout.
  apply timedelta_seconds_within_a_day; lia.
Qed.

(** X8.  Between one minute and one day the snapshot is stale: a read whose
    clock reading is at least 60 seconds and less than a day after the
    timestamp reads the store again, returns its current snapshot and
    stamps the cache with the next clock reading. *)
Theorem stale_snapshot_is_reloaded
    (s : State) (e : string * PyVal) (cache : Prefs) (stamp : Z)
    (Hcache : _preferences_cache s = Some (e :: cache))
    (Hstamp : _cache_timestamp s = Some stamp)
    (Htimeout : _cache_timeout s = 60)
    (Hage : 60 * 1000000 <= clock s (clock_reads s) - stamp
            < 86400 * 1000000) :
  get_all_preferences s = reload (snd (datetime_now s))
  /\ forall p,
       load_rows (select_prefs (db s)) DEFAULT_PREFERENCES = Return p ->
       get_all_preferences s
       = (Return p,
          mk_state (db s) (Some p) (Some (clock s (S (clock_reads s))))
                   60 (PREFERENCE_OPTIONS s) (clock s)
                   (S (S (clock_reads s)))).
Proof.
  assert (get_all_preferences s = reload (snd (datetime_now s))) as H.
  { apply (get_all_preferences_expired s e cache stamp Hcache Hstamp).
    rewrite Htimeout.
    destruct (Z_lt_ge_dec
                (timedelta_seconds (clock s (clock_reads s) - stamp)) 60)
      as [Hlt|Hge]; [|lia].
    apply timedelta_seconds_within_a_day in Hlt; lia. }
  split; [exact H|].
  intros p Hp. rewrite H.
  rewrite (reload_spec _ p) by exact Hp.
  cbn [datetime_now snd db _cache_timeout PREFERENCE_OPTIONS clock
       clock_reads].
  now rewrite Htimeout.
Qed.

(** *** Validation against the schema *)

Lemma py_eq_str_left (v : PyVal) (t : string) :
  py_eq (VStr t) v = true <-> v = VStr t.
Proof.
  destruct v; simpl; split; try discriminate; try congruence.
  - intros H. apply String.eqb_eq in H. now subst.
  - intros [= ->]. apply String.eqb_refl.
Qed.

Lemma in_catalog (zone : string) :
  In zone _get_timezone_options
  <-> In zone common_zones \/ In zone pytz_all_timezones.
Proof.
  unfold _get_timezone_options. rewrite in_app_iff.
  split.
  - intros [H|H]; [now left|]. right.
    apply (Permutation_in _ (sorted_perm _)) in H.
    now apply filter_In in H.
  - intros [H|H]; [now left|].
    destruct (existsb (String.eqb zone) common_zones) eqn:E.
    + left. now apply in_common_zones.
    + right. apply (Permutation_in _ (Permutation_sym (sorted_perm _))).
      apply filter_In. split; [exact H|]. now rewrite E.
Qed.

(** X9.  On a constructed service the timezone preference accepts exactly
    the strings of the catalog: a value passes the validation of
    [set_preference] under ['timezone'] if and only if it is a string that
    is one of the 14 common identifiers or listed by [pytz.all_timezones]. *)
Theorem timezone_accepts_exactly_the_catalog (s : State) (value : PyVal)
    (Hconstructed : PREFERENCE_OPTIONS s = constructed_options) :
  validates s "timezone" value = true
  <-> exists zone,
        value = VStr zone
        /\ (In zone common_zones \/ In zone pytz_all_timezones).
Proof.
  unfold validates, allowed, allowed_values. rewrite Hconstructed.
  unfold constructed_options. rewrite dict_get_set_same.
  destruct common_zones_in_catalog as (z0 & rest & Hcat).
  rewrite Hcat, <- Hcat. cbn [recognized andb].
  change (recognized "timezone") with true. cbn [andb].
  unfold py_in. rewrite existsb_exists. split.
  - intros (x & Hx & Heq). apply in_map_iff in Hx as (zone & <- & Hz).
    apply py_eq_str_left in Heq. exists zone. split; [exact Heq|].
    now apply in_catalog.
  - intros (zone & -> & Hz). exists (VStr zone). split.
    + apply in_map. now apply in_catalog.
    + apply py_eq_str_left. reflexivity.
Qed.

(** X10.  The schema is consistent with itself: on a constructed service
    every default passes the validation of its own key, whatever the
    catalog of the timezone database, so importing the default map
    succeeds and writes all 19 rows. *)
Theorem defaults_pass_validation (s : State)
    (Hconstructed : PREFERENCE_OPTIONS s = constructed_options) :
  forallb (fun e => validates s (fst e) (snd e)) DEFAULT_PREFERENCES = true
  /\ import_preferences DEFAULT_PREFERENCES s
     = (Return true, after_sets s DEFAULT_PREFERENCES)
  /\ forall key default,
       dict_get DEFAULT_PREFERENCES key = Some default ->
       lookup_row (db (after_sets s DEFAULT_PREFERENCES))
                  ("pref_" ++ key)%string
       = Some (value_str default).
Proof.
  assert (forallb (fun e => validates s (fst e) (snd e)) DEFAULT_PREFERENCES
          = true) as Hall.
  { unfold validates, allowed, allowed_values. rewrite Hconstructed.
    reflexivity. }
  split; [exact Hall|]. split.
  - now apply set_multiple_preferences_all_valid.
  - intros key default Hget. rewrite db_after_sets.
    apply lookup_persist.
    + unfold DEFAULT_PREFERENCES. simpl.
      repeat (constructor;
              [simpl; intros H;
               repeat (destruct H as [H|H]; [discriminate H|]); exact H|]).
      constructor.
    + now apply dict_get_In.
Qed.


(** *** Batches read back *)

Lemma settled_insert (t : Store) (key : string) (value : PyVal) :
  settled (insert_or_replace ("pref_" ++ key) (value_str value) t) key value.
Proof.
  exists (filter (fun r => negb (String.eqb (row_key r) ("pref_" ++ key)))
                 (select_prefs t)), [].
  split; [apply select_prefs_insert, sql_like_db_key|].
  intros r [].
Qed.

Lemma settled_insert_other (t : Store) (key key' : string)
    (value : PyVal) (v' : string) :
  settled t key value -> key' <> key -> recognized key' = true ->
  settled (insert_or_replace ("pref_" ++ key') v' t) key value.
Proof.
  intros (before & after & Hsel & Hafter) Hne Hrec.
  set (keep := fun r : Row =>
                 negb (String.eqb (row_key r) ("pref_" ++ key'))).
  exists (filter keep before), (filter keep after ++ [mk_row ("pref_" ++ key') v']).
  split.
  - rewrite select_prefs_insert by apply sql_like_db_key.
    fold keep. rewrite Hsel, filter_app. cbn [filter].
    assert (keep (mk_row ("pref_" ++ key) (value_str value)) = true) as ->.
    { unfold keep. cbn [row_key].
      destruct (String.eqb ("pref_" ++ key) ("pref_" ++ key')) eqn:E;
        [|reflexivity].
      apply String.eqb_eq, db_key_injective in E. congruence. }
    now rewrite <- app_assoc.
  - intros r Hr. apply in_app_or in Hr as [Hr|[<-|[]]].
    + apply filter_In in Hr as [Hr _]. now apply Hafter.
    + cbn [row_key].
      rewrite (strip_pref_db_key key' (recognized_In key' Hrec)).
      exact Hne.
Qed.

Lemma settled_persist (entries : list (string * PyVal)) (t : Store)
    (key : string) (value : PyVal) :
  settled t key value ->
  ~ In key (map fst entries) ->
  (forall k v, In (k, v) entries -> recognized k = true) ->
  settled (persist t entries) key value.
Proof.
  revert t. induction entries as [|[k v] rest IH]; intros t Hs Hk Hrec;
    [exact Hs|].
  unfold persist in *. cbn [fold_left fst snd].
  apply IH.
  - apply settled_insert_other; [exact Hs| |].
    + intros E. apply Hk. now left.
    + apply (Hrec k v). now left.
  - intros Hin. apply Hk. now right.
  - intros k' v' Hin. apply (Hrec k' v'). now right.
Qed.

Lemma persist_settles (entries : list (string * PyVal)) (t : Store)
    (key : string) (value : PyVal) :
  NoDup (map fst entries) -> In (key, value) entries ->
  (forall k v, In (k, v) entries -> recognized k = true) ->
  settled (persist t entries) key value.
Proof.
  revert t. induction entries as [|[k v] rest IH]; intros t Hnd Hin Hrec;
    [contradiction|].
  cbn [map fst] in Hnd. apply NoDup_cons_iff in Hnd as [Hk Hnd].
  change (persist t ((k, v) :: rest))
    with (persist (insert_or_replace ("pref_" ++ k)%string (value_str v) t)
                  rest).
  destruct Hin as [[= -> ->]|Hin].
  - apply settled_persist; [apply settled_insert|exact Hk|].
    intros k' v' H. apply (Hrec k' v'). now right.
  - apply IH; [exact Hnd|exact Hin|].
    intros k' v' H. apply (Hrec k' v'). now right.
Qed.

Lemma store_loads_insert (t : Store) (key v : string) :
  store_loads t = true ->
  row_loads (mk_row ("pref_" ++ key) v) = true ->
  store_loads (insert_or_replace ("pref_" ++ key) v t) = true.
Proof.
  intros Ht Hr. unfold store_loads.
  rewrite select_prefs_insert by apply sql_like_db_key.
  rewrite forallb_app. cbn [forallb]. rewrite Hr.
  now rewrite (forallb_filter _ _ _ Ht).
Qed.

Lemma recognized_of_declared (key : string) (T : PyType) :
  declared_type key = Some T -> recognized key = true.
Proof.
  unfold recognized, declared_type.
  now destruct (dict_get DEFAULT_PREFERENCES key).
Qed.

(** A value of the declared type that passes validation on a constructed
    service. *)
Lemma typed_entries_load `{LAWS : !RuntimeLaws}
    (s : State) (entries : list (string * PyVal)) (t : Store) :
  PREFERENCE_OPTIONS s = constructed_options ->
  (forall k v, In (k, v) entries ->
     exists T, declared_type k = Some T /\ has_type v T = true
               /\ allowed s k v = true) ->
  store_loads t = true -> store_loads (persist t entries) = true.
Proof.
  intros Hopts. revert t.
  induction entries as [|[k v] rest IH]; intros t Hty Ht; [exact Ht|].
  change (persist t ((k, v) :: rest))
    with (persist (insert_or_replace ("pref_" ++ k)%string (value_str v) t)
                  rest).
  apply IH.
  - intros k' v' H. apply Hty. now right.
  - destruct (Hty k v (or_introl eq_refl)) as (T & HT & Hv & Hal).
    apply store_loads_insert; [exact Ht|]. unfold row_loads.
    rewrite (load_row_reads_back k v T [] HT Hv).
    + reflexivity.
    + exact (allowed_reads_back s k v T Hopts HT Hv Hal).
Qed.

Lemma after_sets_cache (entries : list (string * PyVal)) (s : State) :
  entries <> [] -> _preferences_cache (after_sets s entries) = None.
Proof.
  assert (forall l s0, _preferences_cache s0 = None ->
                       _preferences_cache (after_sets s0 l) = None) as H.
  { induction l as [|e l IH]; intros s0 H0; [exact H0|].
    unfold after_sets in *. cbn [fold_left]. now apply IH. }
  destruct entries as [|e rest]; [congruence|]. intros _.
  unfold after_sets. cbn [fold_left]. now apply H.
Qed.

Lemma import_reads_back `{LAWS : !RuntimeLaws}
    (s : State) (entries : list (string * PyVal))
    (Hconstructed : PREFERENCE_OPTIONS s = constructed_options)
    (Hloads : store_loads (db s) = true)
    (Hkeys : NoDup (map fst entries))
    (Htyped : forall k v, In (k, v) entries ->
                exists T, declared_type k = Some T /\ has_type v T = true
                          /\ allowed s k v = true) :
  import_preferences entries s = (Return true, after_sets s entries)
  /\ forall key value, In (key, value) entries ->
       exists s2,
         get_preference key (after_sets s entries) = (Return value, s2).
Proof.
  assert (forall k v, In (k, v) entries -> recognized k = true) as Hrec.
  { intros k v H. destruct (Htyped k v H) as (T & HT & _).
    exact (recognized_of_declared k T HT). }
  split.
  - apply set_multiple_preferences_all_valid.
    apply forallb_forall. intros [k v] H. cbn [fst snd]. unfold validates.
    rewrite (Hrec k v H). destruct (Htyped k v H) as (T & _ & _ & Hal).
    now rewrite Hal.
  - intros key value Hin.
    destruct (Htyped key value Hin) as (T & HT & Hv & Hal).
    pose proof (allowed_reads_back s key value T Hconstructed HT Hv Hal)
      as Hrb.
    pose proof (typed_entries_load s entries (db s) Hconstructed Htyped
                  Hloads) as Hfinal.
    destruct (persist_settles entries (db s) key value Hkeys Hin Hrec)
      as (before & after & Hsel & Hafter).
    unfold store_loads in Hfinal. rewrite Hsel in Hfinal.
    rewrite forallb_app in Hfinal. cbn [forallb] in Hfinal.
    apply andb_true_iff in Hfinal as [Hb Hfinal].
    apply andb_true_iff in Hfinal as [_ Ha].
    destruct (load_rows_returns before DEFAULT_PREFERENCES Hb) as [p1 Hp1].
    destruct (load_rows_untouched after key Ha Hafter (dict_set p1 key value))
      as (p & Hp & Hget).
    assert (load_rows (select_prefs (db (after_sets s entries)))
                      DEFAULT_PREFERENCES = Return p) as Hload.
    { rewrite db_after_sets, Hsel, load_rows_app, Hp1. cbn [load_rows].
      now rewrite (load_row_reads_back key value T p1 HT Hv Hrb). }
    assert (_preferences_cache (after_sets s entries) = None) as Hnone.
    { apply after_sets_cache. intros E. rewrite E in Hin. contradiction. }
    eexists. unfold get_preference, bind.
    rewrite get_all_preferences_uncached by exact Hnone.
    rewrite (reload_spec _ _ Hload). unfold ret.
    rewrite Hget, dict_get_set_same. reflexivity.
Qed.

(** X11.  A batch reads back: on a constructed service whose rows load,
    after [set_multiple_preferences] (or [import_preferences]) on a mapping
    of values of the declared types that pass validation, the call returns
    and [get_preference] returns, for every key of the mapping, the value
    the mapping gave it. *)
Theorem batch_round_trip `{LAWS : !RuntimeLaws}
    (s : State) (entries : list (string * PyVal))
    (Hconstructed : PREFERENCE_OPTIONS s = constructed_options)
    (Hloads : store_loads (db s) = true)
    (Hkeys : NoDup (map fst entries))
    (Htyped : forall k v, In (k, v) entries ->
                exists T, declared_type k = Some T /\ has_type v T = true
                          /\ allowed s k v = true) :
  import_preferences entries s = (Return true, after_sets s entries)
  /\ forall key value, In (key, value) entries ->
       exists s2,
         get_preference key (after_sets s entries) = (Return value, s2).
Proof.
  exact (import_reads_back s entries Hconstructed Hloads Hkeys Htyped).
Qed.


(** *** Introspection *)

Lemma categorize_in_hit (table : list (string * list string)) (key : string) :
  categorize_in table key <> "Other" ->
  In key (List.concat (map snd table)).
Proof.
  induction table as [|[category keys] table IH]; cbn [categorize_in];
    [congruence|].
  cbn [map snd List.concat]. intros H. apply in_or_app.
  destruct (existsb (String.eqb key) keys) eqn:E.
  - left. apply existsb_exists in E as (x & Hx & Ex).
    apply String.eqb_eq in Ex. now subst.
  - right. now apply IH.
Qed.

(** X12.  The two tables of the metadata cover the schema exactly.  A key
    is categorized (its category is not ['Other']) if and only if it is a
    schema key, and no key is listed under two categories; the description
    table has one entry for each schema key, in schema order, none of them
    empty, and a key outside the schema gets the generated
    ['Configure ...'] text. *)
Theorem metadata_tables_cover_the_schema (title : string -> string) :
  (forall key, recognized key = true
               <-> _categorize_preference key <> "Other")
  /\ NoDup (List.concat (map snd categories))
  /\ List.length (List.concat (map snd categories)) = 19%nat
  /\ dict_keys descriptions = dict_keys DEFAULT_PREFERENCES
  /\ (forall key, recognized key = true ->
        exists d, dict_get descriptions key = Some d
                  /\ _get_preference_description title key = d
                  /\ d <> EmptyString)
  /\ (forall key, recognized key = false ->
        _categorize_preference key = "Other"
        /\ _get_preference_description title key
           = ("Configure " ++ title (underscores_to_spaces key))%string).
Proof.
  assert (forall key, recognized key = true
                      <-> _categorize_preference key <> "Other") as Hcat.
  { intros key. split.
    - intros H. apply recognized_In in H. simpl in H.
      repeat (destruct H as [H|H]; [subst key; discriminate|]).
      contradiction.
    - intros H. apply categorize_in_hit in H. simpl in H.
      repeat (destruct H as [H|H]; [subst key; reflexivity|]).
      contradiction. }
  split; [exact Hcat|]. split.
  { simpl. repeat (constructor;
                   [simpl; intros H;
                    repeat (destruct H as [H|H]; [discriminate H|]);
                    exact H|]).
    constructor. }
  split; [reflexivity|]. split; [reflexivity|]. split.
  - intros key H. apply recognized_In in H. simpl in H.
    unfold _get_preference_description.
    repeat (destruct H as [H|H];
            [subst key; eexists; split; [reflexivity|];
             split; [reflexivity|discriminate]|]).
    contradiction.
  - intros key H. split.
    + destruct (string_dec (_categorize_preference key) "Other") as [E|E];
        [exact E|].
      apply Hcat in E. congruence.
    + unfold _get_preference_description.
      destruct (dict_get descriptions key) as [d|] eqn:E; [|reflexivity].
      apply dict_get_In in E. apply (in_map fst) in E. cbn [fst] in E.
      assert (recognized key = true); [|congruence].
      simpl in E.
      repeat (destruct E as [E|E]; [subst key; reflexivity|]).
      contradiction.
Qed.

Lemma options_get_same (s s' : State) (key : string) :
  PREFERENCE_OPTIONS s' = PREFERENCE_OPTIONS s ->
  options_get s' key = options_get s key.
Proof. intros H. unfold options_get. now rewrite H. Qed.

Lemma metadata_loop_spec (title : string -> string)
    (items : list (string * PyVal)) (p : Prefs) :
  forall (metadata : list (string * Metadata)) (s0 s : State),
    db s0 = db s -> PREFERENCE_OPTIONS s0 = PREFERENCE_OPTIONS s ->
    cache_coherent s0 -> store_loads (db s) = true ->
    load_rows (select_prefs (db s)) DEFAULT_PREFERENCES = Return p ->
    exists s',
      metadata_loop title items metadata s0
      = (Return
           (fold_left
              (fun acc e =>
                 dict_set acc (fst e)
                   (mk_metadata (snd e)
                      match dict_get p (fst e) with
                      | Some v => v
                      | None =>
                          match dict_get DEFAULT_PREFERENCES (fst e) with
                          | Some v => v
                          | None => VNone
                          end
                      end
                      (type_name (snd e)) (options_get s (fst e))
                      (_categorize_preference (fst e))
                      (_get_preference_description title (fst e))))
              items metadata), s')
      /\ db s' = db s.
Proof.
  induction items as [|[key d] items IH];
    intros metadata s0 s Hdb Hopts Hco Hloads Hp.
  - exists s0. split; [reflexivity|exact Hdb].
  - cbn [metadata_loop fold_left fst snd].
    rewrite <- Hdb in Hloads.
    destruct (get_preference_snapshot s0 key Hco Hloads)
      as (p' & s1 & Hp' & Hdb1 & Hco1 & Hrun).
    assert (p' = p) as -> by (rewrite Hdb in Hp'; congruence).
    assert (PREFERENCE_OPTIONS s1 = PREFERENCE_OPTIONS s) as Hopts1.
    { rewrite <- Hopts.
      pose proof (keeps_get_preference key s0) as K.
      now rewrite Hrun in K. }
    unfold bind at 1. rewrite Hrun. unfold bind at 1, get_state.
    rewrite (options_get_same s s1 key Hopts1).
    rewrite Hdb in Hloads.
    apply (IH _ s1 s); try assumption. congruence.
Qed.

(** X13.  On a coherent state whose rows load, [get_preference_metadata]
    returns one entry for each schema key, in schema order.  The entry
    carries the schema default and the name of its type, the value of the
    key in the snapshot of the store as [current], the allowed list in force
    as [options], and the category and description of the tables; the
    store is left as it was. *)
Theorem get_preference_metadata_entries (title : string -> string)
    (s : State) (Hcache : cache_coherent s)
    (Hloads : store_loads (db s) = true) :
  exists p s',
    load_rows (select_prefs (db s)) DEFAULT_PREFERENCES = Return p
    /\ db s' = db s
    /\ get_preference_metadata title s
       = (Return
            (map (fun e =>
                    (fst e,
                     mk_metadata (snd e)
                       match dict_get p (fst e) with
                       | Some v => v
                       | None => snd e
                       end
                       (type_name (snd e)) (options_get s (fst e))
                       (_categorize_preference (fst e))
                       (_get_preference_description title (fst e))))
                 DEFAULT_PREFERENCES), s')
    /\ (forall e, In e DEFAULT_PREFERENCES ->
          In (type_name (snd e)) ["str"; "int"; "bool"]
          /\ _categorize_preference (fst e) <> "Other").
Proof.
  destruct (load_rows_returns _ DEFAULT_PREFERENCES Hloads) as [p Hp].
  destruct (metadata_loop_spec title DEFAULT_PREFERENCES p [] s s
              eq_refl eq_refl Hcache Hloads Hp) as (s' & Hrun & Hdb).
  exists p, s'. split; [exact Hp|]. split; [exact Hdb|]. split.
  - unfold get_preference_metadata. rewrite Hrun. reflexivity.
  - intros e He. simpl in He.
    repeat (destruct He as [He|He];
            [subst e; split; [simpl; tauto|discriminate]|]).
    contradiction.
Qed.


(** *** Page helpers *)

(** X14.  [BasePage.get_user_timezone] builds its own service, so it never
    serves a cached snapshot: whatever the cache of the state holds, it
    reads the store and returns the timezone of its current snapshot, or
    raises what the reload raises. *)
Theorem get_user_timezone_reads_the_store (s : State) :
  match load_rows (select_prefs (db s)) DEFAULT_PREFERENCES with
  | Return p =>
      exists zone s',
        dict_get p "timezone" = Some zone
        /\ get_user_timezone s = (Return zone, s')
        /\ _preferences_cache s' = Some p
        /\ db s' = db s
  | Raise e => exists s', get_user_timezone s = (Raise e, s')
  end.
Proof.
  set (s0 := snd (new_service s)).
  assert (get_user_timezone s = get_preference "timezone" s0) as ->
    by reflexivity.
  assert (_preferences_cache s0 = None) as Hnone by reflexivity.
  assert (db s0 = db s) as Hdb by reflexivity.
  unfold get_preference, bind.
  rewrite get_all_preferences_uncached by exact Hnone.
  destruct (load_rows (select_prefs (db s)) DEFAULT_PREFERENCES) as [p|e]
    eqn:Hp.
  - rewrite <- Hdb in Hp. rewrite (reload_spec s0 p Hp). unfold ret.
    destruct (load_rows_keys _ _ _ Hp) as [extra Hkeys].
    destruct (dict_get_In_keys p "timezone") as [zone Hz].
    { rewrite Hkeys. apply in_or_app. left. simpl. tauto. }
    exists zone. eexists. rewrite Hz. repeat split.
  - exists s0. unfold reload. run. rewrite Hdb, Hp. reflexivity.
Qed.

Lemma try_except_returns {A : Type} (body : M A) (fallback : A) (s : State) :
  exists a s',
    try_except body (fun _ => ret fallback) s = (Return a, s').
Proof.
  unfold try_except, ret. destruct (body s) as [[a|e] s']; eauto.
Qed.

(** X15.  [BasePage.format_timestamp] never raises: for every timestamp,
    timezone argument and state it returns a string.  It returns
    ['Unknown time'], without constructing a service, for a missing or zero
    timestamp, and also when the timestamp cannot be converted. *)
Theorem format_timestamp_never_raises
    (fromtimestamp : Z -> ExnClass + datetime pytz_tzinfo)
    (timestamp_ms : option Z) (user_timezone : option string)
    (include_time : bool) (s : State) :
  (exists out s',
      format_timestamp fromtimestamp timestamp_ms user_timezone include_time s
      = (Return out, s'))
  /\ (timestamp_ms = None \/ timestamp_ms = Some 0 ->
      format_timestamp fromtimestamp timestamp_ms user_timezone include_time s
      = (Return "Unknown time", s))
  /\ (forall ms cls,
        timestamp_ms = Some ms -> fromtimestamp ms = inl cls ->
        fst (format_timestamp fromtimestamp timestamp_ms user_timezone
                              include_time s)
        = Return "Unknown time").
Proof.
  split; [|split].
  - unfold format_timestamp.
    destruct timestamp_ms as [[|ms|ms]|];
      try (now exists "Unknown time", s); apply try_except_returns.
  - intros [->| ->]; reflexivity.
  - intros ms cls -> Hcls. unfold format_timestamp.
    destruct ms; [reflexivity| |];
      unfold try_except, bind, new_service; rewrite Hcls; reflexivity.
Qed.

(** X16.  The fallback of [format_timestamp] to UTC: when a timezone name
    is passed and [pytz.timezone] rejects it, the UTC datetime of the
    timestamp is formatted as it is; when the name is known the datetime is
    converted first.  In both cases the pattern is the one [format_date]
    takes from the stored preferences, read by a new service. *)
Theorem format_timestamp_falls_back_to_utc
    (fromtimestamp : Z -> ExnClass + datetime pytz_tzinfo)
    (ms : Z) (name : string) (include_time : bool) (s : State)
    (dt : datetime pytz_tzinfo)
    (Hms : ms <> 0) (Hname : name <> EmptyString)
    (Hdt : fromtimestamp ms = inr dt) :
  let shown :=
    match pytz_timezone (VStr name) with
    | inl _ => dt
    | inr zone => dt_astimezone dt zone
    end in
  format_timestamp fromtimestamp (Some ms) (Some name) include_time s
  = try_except (format_date shown include_time)
               (fun _ => ret "Unknown time")
               (snd (new_service s)).
Proof.
  cbv zeta. unfold format_timestamp.
  destruct ms as [|ms|ms]; [congruence| |];
    destruct name as [|c r]; try congruence;
    unfold try_except at 1; unfold bind at 1; cbn [new_service];
    unfold bind at 1; rewrite Hdt; cbn [lift_class ret];
    unfold bind at 1; cbn [ret]; unfold bind at 1;
    unfold try_except at 1; unfold bind at 1;
    destruct (pytz_timezone (VStr (String c r))) as [cls|zone];
    cbn [lift_zone raise ret]; unfold try_except; reflexivity.
Qed.


(** *** Edges of validation and conversion *)

Lemma int_key_cases (key : string) :
  declared_type key = Some TInt ->
  key = "messages_per_page" \/ key = "auto_refresh_interval"
  \/ key = "dashboard_refresh_rate".
Proof.
  intros HT. pose proof (recognized_In key (recognized_of_declared _ _ HT))
    as Hin.
  simpl in Hin.
  repeat (destruct Hin as [Hin|Hin];
          [subst key; try discriminate HT; tauto|]).
  contradiction.
Qed.

(** X17.  Validation compares with Python equality, so an integer key
    accepts the boolean [False] where 0 is allowed (never [True], 1 being
    allowed nowhere); the value is stored as ['false'] and read back as the
    integer 0, not as a boolean. *)
Theorem boolean_under_integer_key `{LAWS : !RuntimeLaws}
    (s : State) (key : string) (b : bool)
    (Hconstructed : PREFERENCE_OPTIONS s = constructed_options)
    (Hloads : store_loads (db s) = true)
    (Htype : declared_type key = Some TInt)
    (Hvalid : validates s key (VBool b) = true) :
  b = false
  /\ key <> "messages_per_page"
  /\ set_preference key (VBool b) s
     = (Return true, after_set s key (VBool b))
  /\ lookup_row (db (after_set s key (VBool b))) ("pref_" ++ key)%string
     = Some "false"
  /\ exists s2,
       get_preference key (after_set s key (VBool b)) = (Return (VInt 0), s2).
Proof.
  assert (b = false /\ key <> "messages_per_page") as [-> Hkey].
  { unfold validates, allowed, allowed_values in Hvalid.
    rewrite Hconstructed in Hvalid.
    destruct (int_key_cases key Htype) as [->|[->| ->]];
      destruct b; try discriminate Hvalid; split; congruence. }
  split; [reflexivity|]. split; [exact Hkey|]. split.
  { now rewrite set_preference_spec, Hvalid. }
  split; [apply lookup_insert_same|].
  set (rows := filter (fun r => negb (String.eqb (row_key r) ("pref_" ++ key)))
                      (select_prefs (db s))).
  destruct (load_rows_returns rows DEFAULT_PREFERENCES
              (forallb_filter _ _ _ Hloads)) as [p Hp].
  assert (load_rows (select_prefs (db (after_set s key (VBool false))))
                    DEFAULT_PREFERENCES
          = Return (dict_set p key (VInt 0))) as Hload.
  { cbn [after_set db].
    rewrite select_prefs_insert by apply sql_like_db_key.
    fold rows. rewrite load_rows_app, Hp. cbn [load_rows].
    unfold load_row. cbn [row_key row_value value_str].
    pose proof (json_booleans false) as Hj.
    cbn [reads_back value_str] in Hj. rewrite Hj.
    destruct (int_key_cases key Htype) as [->|[->| ->]];
      [congruence|reflexivity|reflexivity]. }
  eexists. unfold get_preference, bind.
  rewrite get_all_preferences_uncached by reflexivity.
  rewrite (reload_spec _ _ Hload). unfold ret.
  now rewrite dict_get_set_same.
Qed.

(** X18.  [from_tz] matters for a naive datetime only.  For an aware
    datetime it is not looked up, valid or not; for a naive one a [from_tz]
    that [pytz.timezone] rejects makes the conversion raise that
    exception, whatever the configured timezone. *)
Theorem convert_to_user_timezone_from_tz
    (s s1 : State) (dt : datetime pytz_tzinfo) (name : PyVal)
    (Hname : get_timezone s = (Return name, s1)) :
  (tzinfo dt <> None ->
   forall from_tz from_tz',
     convert_to_user_timezone dt from_tz s
     = convert_to_user_timezone dt from_tz' s)
  /\ (tzinfo dt = None ->
      forall from_tz cls,
        pytz_timezone (VStr from_tz) = inl cls ->
        convert_to_user_timezone dt from_tz s = (Raise (PyError cls), s1)).
Proof.
  unfold convert_to_user_timezone, bind, ret. rewrite Hname. split.
  - intros Haware from_tz from_tz'.
    destruct (tzinfo dt); [reflexivity|contradiction].
  - intros Hnaive from_tz cls Hcls. rewrite Hnaive, Hcls. reflexivity.
Qed.


(** *** Backup and restore *)

Lemma lookup_delete_prefs (t : Store) (k : string) :
  sql_like_pref k = true -> lookup_row (delete_prefs t) k = None.
Proof.
  intros Hk. unfold delete_prefs.
  induction t as [|r t IH]; [reflexivity|]. cbn [filter].
  destruct (sql_like_pref (row_key r)) eqn:E; cbn [negb]; [exact IH|].
  cbn [lookup_row].
  destruct (String.eqb (row_key r) k) eqn:E2; [|exact IH].
  apply String.eqb_eq in E2. congruence.
Qed.

Lemma well_formed_after_sets `{LAWS : !RuntimeLaws}
    (entries : list (string * PyVal)) (s : State) :
  well_formed s ->
  PREFERENCE_OPTIONS s = constructed_options ->
  (forall k v, In (k, v) entries ->
     exists T, declared_type k = Some T /\ has_type v T = true
               /\ allowed s k v = true) ->
  well_formed (after_sets s entries).
Proof.
  revert s. induction entries as [|[k v] rest IH]; intros s Hwf Hopts Hty;
    [exact Hwf|].
  unfold after_sets. cbn [fold_left fst snd].
  destruct (Hty k v (or_introl eq_refl)) as (T & HT & Hv & Hal).
  apply IH.
  - pose proof (well_formed_set_preference s k v T Hwf Hopts HT Hv) as H.
    rewrite set_preference_spec in H. unfold validates in H.
    now rewrite (recognized_of_declared k T HT), Hal in H.
  - exact Hopts.
  - intros k' v' H. apply Hty. now right.
Qed.

(** On a well-formed state a recognized key without a row reads as its
    default. *)
Lemma get_preference_unset (s : State) (key : string) :
  well_formed s -> recognized key = true ->
  lookup_row (db s) ("pref_" ++ key)%string = None ->
  exists default s',
    dict_get DEFAULT_PREFERENCES key = Some default
    /\ get_preference key s = (Return default, s').
Proof.
  intros (Hrows & Hloads & Hcache) Hkey Hunset.
  destruct (get_preference_snapshot s key Hcache Hloads)
    as (p & s' & Hp & _ & _ & Hrun).
  assert (forall r, In r (select_prefs (db s)) ->
                    strip_pref (row_key r) <> key) as Hother.
  { intros r Hr Hstrip.
    destruct (rows_recognized_keys _ _ Hrows Hr) as (k & _ & Ek & Es).
    assert (In r (db s)) as Hin by (apply filter_In in Hr; tauto).
    apply (lookup_row_None _ _ _ Hunset Hin). congruence. }
  destruct (load_rows_untouched _ key Hloads Hother DEFAULT_PREFERENCES)
    as (p' & Hp' & Hget).
  assert (p' = p) as -> by congruence.
  unfold recognized in Hkey.
  destruct (dict_get DEFAULT_PREFERENCES key) as [d|] eqn:Ed; [|discriminate].
  exists d, s'. split; [reflexivity|]. now rewrite Hrun, Hget.
Qed.

(** X19.  Restoring a backup: on a constructed service, after
    [reset_to_defaults], [import_preferences] of a mapping of typed valid
    values returns, and then every key of the mapping reads as the mapping
    gave it and every other schema key reads as its default, whatever the
    store held before the reset. *)
Theorem restore_after_reset `{LAWS : !RuntimeLaws}
    (s : State) (entries : list (string * PyVal))
    (Hconstructed : PREFERENCE_OPTIONS s = constructed_options)
    (Hkeys : NoDup (map fst entries))
    (Htyped : forall k v, In (k, v) entries ->
                exists T, declared_type k = Some T /\ has_type v T = true
                          /\ allowed s k v = true) :
  let s1 := snd (reset_to_defaults s) in
  let s2 := after_sets s1 entries in
  import_preferences entries s1 = (Return true, s2)
  /\ (forall key value, In (key, value) entries ->
        exists s3, get_preference key s2 = (Return value, s3))
  /\ (forall key default,
        dict_get DEFAULT_PREFERENCES key = Some default ->
        ~ In key (map fst entries) ->
        exists s3, get_preference key s2 = (Return default, s3)).
Proof.
  cbv zeta. set (s1 := snd (reset_to_defaults s)).
  assert (PREFERENCE_OPTIONS s1 = constructed_options) as Hopts1
    by exact Hconstructed.
  assert (forall k v, In (k, v) entries ->
            exists T, declared_type k = Some T /\ has_type v T = true
                      /\ allowed s1 k v = true) as Htyped1
    by exact Htyped.
  pose proof (well_formed_reset_to_defaults s) as Hwf1. fold s1 in Hwf1.
  destruct (import_reads_back s1 entries Hopts1 (proj1 (proj2 Hwf1)) Hkeys
              Htyped1) as [Himport Hread].
  split; [exact Himport|]. split; [exact Hread|].
  intros key default Hdef Hnot.
  pose proof (well_formed_after_sets entries s1 Hwf1 Hopts1 Htyped1) as Hwf2.
  assert (recognized key = true) as Hrec
    by (unfold recognized; now rewrite Hdef).
  destruct (get_preference_unset (after_sets s1 entries) key Hwf2 Hrec)
    as (d & s3 & Hd & Hrun).
  - rewrite db_after_sets, lookup_persist_other by exact Hnot.
    apply lookup_delete_prefs, sql_like_db_key.
  - exists s3. assert (d = default) as <- by congruence. exact Hrun.
Qed.

End Properties.

(* ================================================================== *)
(** ** The service on the reference runtime *)

Import Reference.



Lemma set_multiple_preferences_not_transactional_witness :
  let s := service [] (ticking 0 1) in
  set_multiple_preferences
    [("language", VStr "fr"); ("time_format", VStr "6h");
     ("messages_per_page", VInt 25)] s
  = (Raise (InvalidPreferenceValue "time_format" (VStr "6h")),
     after_set s "language" (VStr "fr"))
  /\ lookup_row (db (after_set s "language" (VStr "fr"))) "pref_language"
     = Some "fr".
Proof.
  intro s.
  destruct (set_multiple_preferences_not_transactional
              s [("language", VStr "fr")] [("messages_per_page", VInt 25)]
              "time_format" (VStr "6h") eq_refl eq_refl) as (H1 & _ & H3).
  split; [exact H1|].
  apply (H3 (NoDup_cons _ (fun f : In _ [] => f) (NoDup_nil _))
            "language" (VStr "fr")).
  now left.
Defined.

Lemma timezone_catalog_built_once_witness :
  NoDup all_timezones
  /\ NoDup (@_get_timezone_options _ runtime)
  /\ skipn 14 (@_get_timezone_options _ runtime)
     = ["Africa/Cairo"; "America/New_York"; "Asia/Kolkata"; "Europe/Athens"].
Proof.
  assert (NoDup all_timezones) as Hcat.
  { unfold all_timezones.
    repeat (constructor;
            [simpl; intros H;
             repeat (destruct H as [H|H]; [discriminate H|]); exact H|]).
    constructor. }
  split; [exact Hcat|]. split; [|reflexivity].
  apply (@timezone_catalog_built_once _ runtime Hcat).
Defined.

Lemma format_date_follows_preferences_witness :
  let s0 := service [] (ticking 0 1) in
  let s := after_set (after_set s0 "date_format" (VStr "DD/MM/YYYY"))
                     "time_format" (VStr "12h") in
  format_date (mk_datetime 2024 12 25 14 30 0 0 (@None string)) true s
  = (Return "25/12/2024 02:30 PM",
     snd (get_time_format (snd (get_date_format s)))).
Proof.
  intros s0 s.
  assert (get_date_format s
          = (Return (VStr "DD/MM/YYYY"), snd (get_date_format s))) as Hd
    by (vm_compute; reflexivity).
  assert (get_time_format (snd (get_date_format s))
          = (Return (VStr "12h"),
             snd (get_time_format (snd (get_date_format s))))) as Ht
    by (vm_compute; reflexivity).
  destruct (format_date_follows_preferences s _ _
              (mk_datetime 2024 12 25 14 30 0 0 (@None string)) true
              (VStr "DD/MM/YYYY") (VStr "12h") Hd Ht eq_refl)
    as (_ & _ & _ & H).
  exact (H eq_refl eq_refl 0 0 None).
Defined.



(** C3 on a day-old cache.  The service caches the defaults at time 0;
    another writer then stores [pref_time_format = 12h]; the next read comes
    86405 seconds after the snapshot was taken.  The seconds field of that
    age is 5, so the cached snapshot is returned although it is a day old,
    where a reload gives the stored value. *)
Theorem get_all_preferences_serves_day_old_cache :
  let clk := fun i : nat => match i with O => 0 | S _ => 86405 * 1000000 end in
  let s1 := snd (get_all_preferences (service [] clk)) in
  let s2 := snd (set_db [mk_row "pref_time_format" "12h"] s1) in
  let age := clock s2 (clock_reads s2) - 0 in
  _preferences_cache s2 = Some DEFAULT_PREFERENCES
  /\ _cache_timestamp s2 = Some 0
  /\ _cache_timeout s2 = 60
  /\ age = 86405 * 1000000
  /\ timedelta_seconds age = 5
  /\ fst (get_all_preferences s2) = Return DEFAULT_PREFERENCES
  /\ db (snd (get_all_preferences s2)) = db s2
  /\ _cache_timestamp (snd (get_all_preferences s2)) = Some 0
  /\ fst (get_preference "time_format" s2) = Return (VStr "24h")
  /\ fst (reload s2)
     = Return (dict_set DEFAULT_PREFERENCES "time_format" (VStr "12h")).
Proof.
  cbv zeta. repeat split.
Qed.

Lemma service_well_formed (store : Store) (clk : nat -> Z) :
  rows_recognized store = true -> store_loads store = true ->
  well_formed (service store clk).
Proof.
  intros Hrows Hloads. split; [exact Hrows|]. split; [exact Hloads|].
  intros cache H. discriminate H.
Qed.

Lemma get_preference_default_when_unset_witness :
  let s := service [mk_row "bot_name" "signal"; mk_row "pref_language" "fr"]
                   (ticking 0 1) in
  exists s',
    get_preference "messages_per_page" s = (Return (VInt 50), s').
Proof.
  intro s.
  destruct (get_preference_default_when_unset
              s "messages_per_page" eq_refl
              (service_well_formed (db s) (clock s) eq_refl eq_refl) eq_refl)
    as [(d & s' & Hd & Hrun) _].
  injection Hd as <-. now exists s'.
Defined.

Lemma get_preference_unknown_key_returns_None_witness :
  let s := service [mk_row "bot_name" "signal"; mk_row "pref_language" "fr"]
                   (ticking 0 1) in
  exists s', get_preference "favorite_color" s = (Return VNone, s').
Proof.
  intro s.
  destruct (get_preference_unknown_key_returns_None
              s "favorite_color" eq_refl
              (service_well_formed (db s) (clock s) eq_refl eq_refl))
    as [(p & s' & _ & _ & _ & Hrun) _].
  now exists s'.
Defined.

(** The reference runtime obeys the laws. *)
Lemma reference_laws : RuntimeLaws.
Proof.
  constructor.
  - intros [|]; reflexivity.
  - intros key options v Hget Hin.
    apply dict_get_In in Hget. simpl in Hget.
    repeat (destruct Hget as [Hget|Hget];
            [injection Hget as <- <- || discriminate Hget;
             simpl in Hin;
             repeat (destruct Hin as [Hin|Hin];
                     [subst v; repeat split; reflexivity|]);
             contradiction|]).
    contradiction.
  - intros zone Hin. vm_compute in Hin.
    repeat (destruct Hin as [Hin|Hin];
            [subst zone; repeat split; reflexivity|]).
    contradiction.
Qed.

Lemma set_then_get_round_trip_witness :
  let s := service [mk_row "bot_name" "signal"; mk_row "pref_language" "fr"]
                   (ticking 0 1) in
  exists s1 s2,
    set_preference "messages_per_page" (VInt 100) s = (Return true, s1)
    /\ lookup_row (db s1) "pref_messages_per_page" = Some "100"
    /\ _preferences_cache s1 = None
    /\ get_preference "messages_per_page" s1 = (Return (VInt 100), s2).
Proof.
  intro s.
  exact (@set_then_get_round_trip _ _ reference_laws
           s "messages_per_page" (VInt 100) TInt
           eq_refl eq_refl eq_refl eq_refl eq_refl).
Defined.

(** Without the type the round trip is lost: a boolean key accepts the
    string ['123'], which is stored as it is and read back as the integer
    123. *)
Remark untyped_value_is_not_read_back :
  let s := service [] (ticking 0 1) in
  let s1 := snd (set_preference "notification_sound" (VStr "123") s) in
  fst (set_preference "notification_sound" (VStr "123") s) = Return true
  /\ lookup_row (db s1) "pref_notification_sound" = Some "123"
  /\ fst (get_preference "notification_sound" s1) = Return (VInt 123).
Proof. repeat split. Qed.

(** Python equality lets a boolean through an integer allowed set:
    [False == 0], and the stored ['false'] is read back as the integer 0. *)
Remark boolean_passes_integer_options :
  let s := service [] (ticking 0 1) in
  let s1 := snd (set_preference "auto_refresh_interval" (VBool false) s) in
  fst (set_preference "auto_refresh_interval" (VBool false) s) = Return true
  /\ lookup_row (db s1) "pref_auto_refresh_interval" = Some "false"
  /\ fst (get_preference "auto_refresh_interval" s1) = Return (VInt 0).
Proof. repeat split. Qed.

(** Within the window the snapshot is served from the cache, past it the
    store is read again, and a write in between is seen at once. *)
Example cache_window_scenario :
  let clk := fun i : nat =>
    match i with
    | O => 0
    | 1%nat => 59 * 1000000
    | 2%nat => 60 * 1000000
    | _ => 61 * 1000000
    end in
  let s1 := snd (get_all_preferences (service [] clk)) in
  let s2 := snd (set_db [mk_row "pref_language" "fr"] s1) in
  let s3 := snd (get_all_preferences s2) in
  let s4 := snd (set_preference "language" (VStr "de") s1) in
  fst (get_preference "language" s2) = Return (VStr "en")
  /\ fst (get_preference "language" s3) = Return (VStr "fr")
  /\ fst (get_preference "language" s4) = Return (VStr "de").
Proof. repeat split. Qed.

Lemma set_preference_overwrites_witness :
  let s := service [mk_row "pref_language" "fr"] (ticking 0 1) in
  set_preference "language" (VStr "de")
    (snd (set_preference "language" (VStr "ja") s))
  = set_preference "language" (VStr "de") s.
Proof.
  intro s.
  apply (set_preference_overwrites s "language" (VStr "ja") (VStr "de"));
    reflexivity.
Defined.

Lemma snapshot_covers_the_schema_witness :
  let s := service [mk_row "pref_theme" "dark"; mk_row "pref_language" "fr"]
                   (ticking 0 1) in
  exists v, dict_get (match fst (get_all_preferences s) with
                      | Return p => p
                      | Raise _ => []
                      end) "notification_sound" = Some v.
Proof.
  intro s.
  assert (get_all_preferences s
          = (Return (match fst (get_all_preferences s) with
                     | Return p => p
                     | Raise _ => []
                     end), snd (get_all_preferences s))) as Hrun
    by (vm_compute; reflexivity).
  assert (cache_coherent s) as Hco by (intros c H; discriminate H).
  destruct (snapshot_covers_the_schema s _ _ Hco Hrun) as [_ H].
  exact (H "notification_sound" eq_refl).
Defined.


Lemma reads_within_the_window_agree_witness :
  let s := service [] (ticking 0 (59 * 1000000)) in
  let s1 := snd (get_all_preferences s) in
  let s2 := snd (set_db [mk_row "pref_language" "fr"] s1) in
  get_all_preferences s2 = (Return DEFAULT_PREFERENCES, snd (datetime_now s2)).
Proof.
  intros s s1 s2.
  assert (0 <= clock s (S (clock_reads s)) - clock s (clock_reads s)
          < 60 * 1000000) as Hage by (vm_compute; split; congruence).
  exact (proj1 (reads_within_the_window_agree
                  s s1 DEFAULT_PREFERENCES [mk_row "pref_language" "fr"]
                  eq_refl eq_refl eq_refl Hage)).
Defined.

Lemma stale_snapshot_is_reloaded_witness :
  let s := service [] (ticking 0 (60 * 1000000)) in
  let s1 := snd (get_all_preferences s) in
  let s2 := snd (set_db [mk_row "pref_language" "fr"] s1) in
  fst (get_all_preferences s2)
  = Return (dict_set DEFAULT_PREFERENCES "language" (VStr "fr")).
Proof.
  intros s s1 s2.
  assert (60 * 1000000 <= clock s2 (clock_reads s2) - 0 < 86400 * 1000000)
    as Hage by (vm_compute; split; congruence).
  destruct (stale_snapshot_is_reloaded
              s2 ("timezone", VStr "UTC") (tl DEFAULT_PREFERENCES) 0
              eq_refl eq_refl eq_refl Hage) as [_ H].
  now rewrite (H (dict_set DEFAULT_PREFERENCES "language" (VStr "fr"))
                 eq_refl).
Defined.

Lemma timezone_accepts_exactly_the_catalog_witness :
  let s := service [] (ticking 0 1) in
  validates s "timezone" (VStr "Europe/Athens") = true
  /\ validates s "timezone" (VStr "Mars/Phobos") = false.
Proof.
  intro s. split.
  - apply (timezone_accepts_exactly_the_catalog s _ eq_refl).
    exists "Europe/Athens". split; [reflexivity|]. right.
    vm_compute. tauto.
  - reflexivity.
Defined.

Lemma defaults_pass_validation_witness :
  let s := service [mk_row "pref_language" "fr"] (ticking 0 1) in
  import_preferences DEFAULT_PREFERENCES s
  = (Return true, after_sets s DEFAULT_PREFERENCES).
Proof.
  intro s. exact (proj1 (proj2 (defaults_pass_validation s eq_refl))).
Defined.

Lemma batch_round_trip_witness :
  let s := service [mk_row "pref_language" "fr"] (ticking 0 1) in
  let entries := [("language", VStr "de"); ("messages_per_page", VInt 200);
                  ("notification_sound", VBool false)] in
  exists s2,
    get_preference "messages_per_page" (after_sets s entries)
    = (Return (VInt 200), s2).
Proof.
  intros s entries.
  assert (NoDup (map fst entries)) as Hnd.
  { repeat (constructor;
            [simpl; intros H;
             repeat (destruct H as [H|H]; [discriminate H|]); exact H|]).
    constructor. }
  assert (forall k v, In (k, v) entries ->
            exists T, declared_type k = Some T /\ has_type v T = true
                      /\ allowed s k v = true) as Hty.
  { intros k v H. simpl in H.
    destruct H as [[= <- <-]|[[= <- <-]|[[= <- <-]|[]]]];
      eexists; repeat split. }
  destruct (@batch_round_trip _ _ reference_laws s entries eq_refl eq_refl
              Hnd Hty) as [_ H].
  apply (H "messages_per_page" (VInt 200)). simpl. tauto.
Defined.

Lemma get_preference_metadata_entries_witness :
  let s := service [mk_row "pref_language" "fr"] (ticking 0 1) in
  exists metadata entry,
    fst (get_preference_metadata (fun t => t) s) = Return metadata
    /\ dict_get metadata "language" = Some entry
    /\ meta_default entry = VStr "en"
    /\ meta_current entry = VStr "fr"
    /\ meta_category entry = "Display".
Proof.
  intro s.
  assert (cache_coherent s) as Hco by (intros c H; discriminate H).
  destruct (get_preference_metadata_entries (fun t => t) s Hco eq_refl)
    as (p & s' & Hp & _ & Hrun & _).
  vm_compute in Hp. injection Hp as <-.
  rewrite Hrun. eexists. eexists. split; [reflexivity|].
  repeat split.
Defined.

Lemma format_timestamp_falls_back_to_utc_witness :
  let s := service [mk_row "pref_date_format" "DD/MM/YYYY"] (ticking 0 1) in
  let utc : Z -> ExnClass + datetime pytz_tzinfo := fun ms =>
    if ms =? 1735137000000
    then inr (mk_datetime 2024 12 25 14 30 0 0 (Some "UTC"))
    else inl ClsOverflowError in
  fst (format_timestamp utc (Some 1735137000000) (Some "Mars/Phobos") true s)
  = Return "25/12/2024 14:30".
Proof.
  intros s utc.
  rewrite (format_timestamp_falls_back_to_utc
             utc 1735137000000 "Mars/Phobos" true s
             (mk_datetime 2024 12 25 14 30 0 0 (Some "UTC")));
    [reflexivity|discriminate|discriminate|reflexivity].
Defined.

Lemma boolean_under_integer_key_witness :
  let s := service [] (ticking 0 1) in
  exists s2,
    get_preference "auto_refresh_interval"
      (after_set s "auto_refresh_interval" (VBool false))
    = (Return (VInt 0), s2).
Proof.
  intro s.
  exact (proj2 (proj2 (proj2 (proj2
           (@boolean_under_integer_key _ _ reference_laws
              s "auto_refresh_interval" false
              eq_refl eq_refl eq_refl eq_refl))))).
Defined.

Lemma convert_to_user_timezone_from_tz_witness :
  let s := service [] (ticking 0 1) in
  fst (convert_to_user_timezone
         (mk_datetime 2024 7 1 12 0 0 0 None) "Mars/Phobos" s)
  = Raise (PyError ClsUnknownTimeZoneError).
Proof.
  intro s.
  assert (get_timezone s = (Return (VStr "UTC"), snd (get_timezone s)))
    as Hname by (vm_compute; reflexivity).
  destruct (convert_to_user_timezone_from_tz
              s _ (mk_datetime 2024 7 1 12 0 0 0 None) (VStr "UTC") Hname)
    as [_ H].
  now rewrite (H eq_refl "Mars/Phobos" ClsUnknownTimeZoneError eq_refl).
Defined.

Lemma restore_after_reset_witness :
  let s := service [mk_row "pref_language" "fr";
                    mk_row "pref_time_format" "12h"] (ticking 0 1) in
  let entries := [("language", VStr "de"); ("messages_per_page", VInt 200)] in
  let s2 := after_sets (snd (reset_to_defaults s)) entries in
  (exists s3, get_preference "language" s2 = (Return (VStr "de"), s3))
  /\ (exists s3, get_preference "time_format" s2 = (Return (VStr "24h"), s3)).
Proof.
  intros s entries s2.
  assert (NoDup (map fst entries)) as Hnd.
  { repeat (constructor;
            [simpl; intros H;
             repeat (destruct H as [H|H]; [discriminate H|]); exact H|]).
    constructor. }
  assert (forall k v, In (k, v) entries ->
            exists T, declared_type k = Some T /\ has_type v T = true
                      /\ allowed s k v = true) as Hty.
  { intros k v H. simpl in H.
    destruct H as [[= <- <-]|[[= <- <-]|[]]]; eexists; repeat split. }
  destruct (@restore_after_reset _ _ reference_laws s entries eq_refl Hnd Hty)
    as (_ & Hin & Hout).
  split.
  - apply (Hin "language" (VStr "de")). simpl. tauto.
  - apply (Hout "time_format" (VStr "24h")); [reflexivity|].
    simpl. intros [H|[H|[]]]; discriminate H.
Defined.
